(** * Sales forecasting script (sarima.py): a shallow embedding

    The script is one Streamlit page: it reads an uploaded CSV, picks a text
    encoding, checks two required columns, buckets the orders by calendar
    month, hands the monthly series to statsmodels' SARIMAX and shows a
    twelve month forecast.  The libraries it calls (chardet, pandas' CSV
    reader and date parser, statsmodels) are not part of the script; they
    appear below as the fields of an environment record, and the script's own
    logic is written out over them. *)

From Stdlib Require Import ZArith List Bool String Ascii Lia Sorted.
Import ListNotations.
Open Scope string_scope.
Open Scope list_scope.
Open Scope Z_scope.

Set Implicit Arguments.

(** ** Timestamps and the calendar *)

Module Calendar.

(** A pandas [Timestamp], by its calendar fields.  [time] is the time of day
    in nanoseconds since midnight. *)
Record Timestamp : Type := mkTimestamp
  { year : Z; month : Z; day : Z; time : Z }.

Definition valid_month (t : Timestamp) : Prop := 1 <= month t <= 12.

Definition ts_eqb (a b : Timestamp) : bool :=
  (year a =? year b) && (month a =? month b)
  && (day a =? day b) && (time a =? time b).

(** Chronological order, which on calendar fields is the lexicographic one. *)
Definition ts_ltb (a b : Timestamp) : bool :=
  (year a <? year b)
  || ((year a =? year b)
      && ((month a <? month b)
          || ((month a =? month b)
              && ((day a <? day b)
                  || ((day a =? day b) && (time a <? time b)))))).

Definition ts_lt (a b : Timestamp) : Prop := ts_ltb a b = true.

(** [Series.dt.to_period('M')]: a monthly period is the number of months
    since January 1970. *)
Definition to_period_M (t : Timestamp) : Z := (year t - 1970) * 12 + (month t - 1).

(** [PeriodIndex.to_timestamp()]: the first instant of the period. *)
Definition to_timestamp (p : Z) : Timestamp :=
  mkTimestamp (1970 + p / 12) (p mod 12 + 1) 1 0.

(** Line 34: [df['ORDERDATE'].dt.to_period('M').dt.to_timestamp()]. *)
Definition month_start (t : Timestamp) : Timestamp := to_timestamp (to_period_M t).

Definition is_leap (y : Z) : bool :=
  ((y mod 4 =? 0) && negb (y mod 100 =? 0)) || (y mod 400 =? 0).

Definition days_in_month (y m : Z) : Z :=
  if m =? 2 then (if is_leap y then 29 else 28)
  else if (m =? 4) || (m =? 6) || (m =? 9) || (m =? 11) then 30
  else 31.

(** How a month shift chooses the day: keep it (clipped to the length of the
    target month), or go to the first of the month. *)
Inductive day_opt : Type := SameDay | StartDay.

(** pandas' month arithmetic ([shift_month]): floor division and modulo on
    the month number, with month 0 read as December of the year before. *)
Definition shift_month (t : Timestamp) (months : Z) (opt : day_opt) : Timestamp :=
  let dy := (month t + months) / 12 in
  let m := (month t + months) mod 12 in
  let '(m, dy) := if m =? 0 then (12, dy - 1) else (m, dy) in
  let y := year t + dy in
  let d := match opt with
           | StartDay => 1
           | SameDay => Z.min (day t) (days_in_month y m)
           end in
  mkTimestamp y m d (time t).

(** [ts + pd.DateOffset(months=n)]. *)
Definition add_DateOffset_months (t : Timestamp) (n : Z) : Timestamp :=
  shift_month t n SameDay.

(** The month-start frequency ['MS']. *)
Definition MS_is_on_offset (t : Timestamp) : bool := day t =? 1.

(** [t + MonthBegin(1)]: a date past the first of its month is already
    "rolled", so one step always lands on the first of the next month. *)
Definition MS_apply (t : Timestamp) : Timestamp :=
  let n := if day t <? 1 then 0 else 1 in
  shift_month t n StartDay.

Definition MS_rollforward (t : Timestamp) : Timestamp :=
  if MS_is_on_offset t then t else MS_apply t.

Fixpoint generate_range (cur : Timestamp) (periods : nat) : list Timestamp :=
  match periods with
  | O => []
  | S n => cur :: generate_range (MS_apply cur) n
  end.

(** [pd.date_range(start=start, periods=periods, freq='MS')]. *)
Definition date_range_MS (start : Timestamp) (periods : nat) : list Timestamp :=
  generate_range (MS_rollforward start) periods.

(** The spec's words, for comparison with the code: "the first calendar month
    after" a month, as a month-start timestamp. *)
Definition spec_next_month (t : Timestamp) : Timestamp :=
  if month t =? 12 then mkTimestamp (year t + 1) 1 1 0
  else mkTimestamp (year t) (month t + 1) 1 0.

(** The spec's words: the [n] consecutive calendar months that follow the
    month of [t], one month per step. *)
Fixpoint spec_following_months (t : Timestamp) (n : nat) : list Timestamp :=
  match n with
  | O => []
  | S n' => spec_next_month t :: spec_following_months (spec_next_month t) n'
  end.

(** The spec's words: "truncate the date to the first day of its calendar
    month". *)
Definition truncate_to_month (t : Timestamp) : Timestamp :=
  mkTimestamp (year t) (month t) 1 0.

End Calendar.
Export Calendar.

(** ** Encoding choice (line 19) *)

Module Encoding.

(** [str.lower] on the ASCII letters; encoding names are ASCII. *)
Definition lower_ascii (c : ascii) : ascii :=
  let n := nat_of_ascii c in
  if (Nat.leb 65 n && Nat.leb n 90)%bool then ascii_of_nat (n + 32) else c.

Fixpoint lower (s : string) : string :=
  match s with
  | EmptyString => EmptyString
  | String c r => String (lower_ascii c) (lower r)
  end.

(** [detected['encoding'] if detected['encoding'] and
     detected['encoding'].lower() not in ['johab', None] else 'ISO-8859-1'].
    The detector's answer is [None] or a string; the empty string is falsy. *)
Definition choose_encoding (detected : option string) : string :=
  match detected with
  | Some e =>
      if negb (String.eqb e "") && negb (String.eqb (lower e) "johab")
      then e else "ISO-8859-1"
  | None => "ISO-8859-1"
  end.

(** Python's single-byte codecs are decoding tables: a byte maps to a code
    point or is undefined, and an undefined byte is a [UnicodeDecodeError]. *)
Definition codec : Type := Byte.byte -> option N.

Fixpoint decode_with (table : codec) (raw : list Byte.byte) : option (list N) :=
  match raw with
  | [] => Some []
  | b :: r =>
      match table b, decode_with table r with
      | Some c, Some l => Some (c :: l)
      | _, _ => None
      end
  end.

(** ISO-8859-1 maps byte [b] to the code point [b]. *)
Definition latin1 : codec := fun b => Some (N.of_nat (Byte.to_nat b)).

(** ASCII, for contrast: a byte above 127 is undefined. *)
Definition ascii7 : codec := fun b =>
  let n := N.of_nat (Byte.to_nat b) in
  if (n <? 128)%N then Some n else None.

(** Python's UTF-16 codec.  The bytes pair up into 16-bit units (a byte left
    over is a [UnicodeDecodeError], "truncated data"); a high surrogate must
    be followed by a low one. *)
Fixpoint utf16_units (little_endian : bool) (raw : list Byte.byte) : option (list N) :=
  match raw with
  | [] => Some []
  | [_] => None
  | a :: b :: r =>
      let x := N.of_nat (Byte.to_nat a) in
      let y := N.of_nat (Byte.to_nat b) in
      let u := if little_endian then (x + 256 * y)%N else (256 * x + y)%N in
      match utf16_units little_endian r with
      | Some l => Some (u :: l)
      | None => None
      end
  end.

Definition is_high_surrogate (u : N) : bool := ((55296 <=? u) && (u <=? 56319))%N.
Definition is_low_surrogate (u : N) : bool := ((56320 <=? u) && (u <=? 57343))%N.

Fixpoint utf16_points (units : list N) : option (list N) :=
  match units with
  | [] => Some []
  | u :: r =>
      if is_high_surrogate u then
        match r with
        | lo :: r' =>
            if is_low_surrogate lo then
              match utf16_points r' with
              | Some l => Some ((65536 + (u - 55296) * 1024 + (lo - 56320))%N :: l)
              | None => None
              end
            else None
        | [] => None
        end
      else if is_low_surrogate u then None
      else match utf16_points r with
           | Some l => Some (u :: l)
           | None => None
           end
  end.

Definition decode_utf16 (raw : list Byte.byte) : option (list N) :=
  let decode order bytes :=
    match utf16_units order bytes with
    | Some units => utf16_points units
    | None => None
    end in
  match raw with
  | Byte.xff :: Byte.xfe :: r => decode true r
  | Byte.xfe :: Byte.xff :: r => decode false r
  | _ => decode true raw
  end.

(** The decoder Python looks up under an encoding name, for the names this
    development knows; [None] is a name it does not model. *)
Definition decoder_of (encoding : string) : option (list Byte.byte -> option (list N)) :=
  if String.eqb (lower encoding) "iso-8859-1" then Some (decode_with latin1)
  else if String.eqb (lower encoding) "ascii" then Some (decode_with ascii7)
  else if String.eqb (lower encoding) "utf-16" then Some decode_utf16
  else None.

End Encoding.
Export Encoding.

(** ** The data frame and the monthly aggregation (lines 32-38) *)

Module Frame.

(** A cell of the ORDERDATE column.  The CSV reader yields text or a missing
    value; after line 32 the column holds timestamps, with [NaT] for a cell
    that did not parse. *)
Inductive DateCell : Type :=
  | Text (s : string)
  | Stamp (t : Timestamp)
  | NaT.

Section Aggregation.

(** The numeric type of the SALES column with its zero and its addition
    (pandas picks int64 or float64 from the file). *)
Variable V : Type.
Variable vzero : V.
Variable vadd : V -> V -> V.

(** pandas' lenient date parser as it acts on the cells of this frame's
    ORDERDATE column; [None] is a parse failure.  pandas settles the date
    format on the column at hand, so the function belongs to one frame. *)
Variable parse_date : string -> option Timestamp.

(** A row of [df], by the two columns the script reads.  A missing SALES
    cell (NaN) is [None]. *)
Record Row : Type := mkRow { ORDERDATE : DateCell; SALES : option V }.

(** [pd.to_datetime(..., errors='coerce')] on one cell: text is parsed, a
    failure becomes [NaT]; a timestamp is kept. *)
Definition to_datetime (c : DateCell) : DateCell :=
  match c with
  | Text s => match parse_date s with Some t => Stamp t | None => NaT end
  | Stamp t => Stamp t
  | NaT => NaT
  end.

(** Line 32: [df['ORDERDATE'] = pd.to_datetime(df['ORDERDATE'], errors='coerce')]. *)
Definition parse_ORDERDATE (df : list Row) : list Row :=
  map (fun r => mkRow (to_datetime (ORDERDATE r)) (SALES r)) df.

Definition notna (c : DateCell) : bool :=
  match c with NaT => false | _ => true end.

(** Line 33: [df = df.dropna(subset=['ORDERDATE'])]. *)
Definition dropna_ORDERDATE (df : list Row) : list Row :=
  filter (fun r => notna (ORDERDATE r)) df.

(** [.dt.to_period('M').dt.to_timestamp()] on one cell of a datetime column;
    [NaT] stays [NaT] ([None]). *)
Definition month_of_cell (c : DateCell) : option Timestamp :=
  match c with
  | Stamp t => Some (month_start t)
  | _ => None
  end.

(** Line 34: the new column [Month], paired with SALES (the two columns that
    line 37 reads). *)
Definition with_Month (df : list Row) : list (option Timestamp * option V) :=
  map (fun r => (month_of_cell (ORDERDATE r), SALES r)) df.

(** [sum] skips a missing value. *)
Definition add_skipna (s : V) (x : option V) : V :=
  match x with Some v => vadd s v | None => s end.

(** One row enters the table of running sums, which is kept ordered by key:
    its group's sum is extended, or a new group is opened at zero. *)
Fixpoint accumulate (k : Timestamp) (x : option V) (acc : list (Timestamp * V))
  : list (Timestamp * V) :=
  match acc with
  | [] => [(k, add_skipna vzero x)]
  | (k', s) :: rest =>
      if ts_eqb k k' then (k', add_skipna s x) :: rest
      else if ts_ltb k k' then (k, add_skipna vzero x) :: acc
      else (k', s) :: accumulate k x rest
  end.

Definition groupby_step (acc : list (Timestamp * V)) (r : option Timestamp * option V)
  : list (Timestamp * V) :=
  match fst r with
  | Some k => accumulate k (snd r) acc
  | None => acc
  end.

(** Line 37: [df.groupby('Month')['SALES'].sum()]: keys in ascending order, a
    missing key dropped, the values of each group added in row order. *)
Definition groupby_sum (rows : list (option Timestamp * option V)) : list (Timestamp * V) :=
  fold_left groupby_step rows [].

(** Lines 32-38: [monthly_sales], indexed by month. *)
Definition monthly_sales (df : list Row) : list (Timestamp * V) :=
  groupby_sum (with_Month (dropna_ORDERDATE (parse_ORDERDATE df))).

(** The month key lines 32-34 give a row of the uploaded frame: none when
    its date does not parse. *)
Definition row_month (r : Row) : option Timestamp :=
  match to_datetime (ORDERDATE r) with
  | Stamp t => Some (month_start t)
  | _ => None
  end.

Definition in_month (k : Timestamp) (r : Row) : bool :=
  match row_month r with Some k' => ts_eqb k' k | None => false end.

(** The sum, in row order from zero, of the SALES cells of the rows whose
    key is [k]. *)
Definition month_total (k : Timestamp) (df : list Row) : V :=
  fold_left add_skipna (map SALES (filter (in_month k) df)) vzero.

Definition lookup (k : Timestamp) (acc : list (Timestamp * V)) : option V :=
  match find (fun e => ts_eqb (fst e) k) acc with
  | Some e => Some (snd e)
  | None => None
  end.

(** The spec's words: a row falls in month [k] when its date parses and
    truncates to [k]; a month's total is the sum of the sales of its rows. *)
Definition falls_in (k : Timestamp) (r : Row) : bool :=
  match to_datetime (ORDERDATE r) with
  | Stamp t => ts_eqb (truncate_to_month t) k
  | _ => false
  end.

Definition spec_month_total (k : Timestamp) (df : list Row) : V :=
  fold_left add_skipna (map SALES (filter (falls_in k) df)) vzero.

(** The months of a series, and what it is for a series to be in strictly
    ascending order of month. *)
Definition keys (acc : list (Timestamp * V)) : list Timestamp := map fst acc.

Definition ordered (acc : list (Timestamp * V)) : Prop :=
  StronglySorted ts_lt (keys acc).

(** The months alone: a key enters an ascending list once. *)
Fixpoint insert_key (k : Timestamp) (l : list Timestamp) : list Timestamp :=
  match l with
  | [] => [k]
  | k' :: rest =>
      if ts_eqb k k' then l
      else if ts_ltb k k' then k :: l
      else k' :: insert_key k rest
  end.

Definition insert_month (l : list Timestamp) (o : option Timestamp) : list Timestamp :=
  match o with Some k => insert_key k l | None => l end.

(** The months of a frame, from its ORDERDATE column alone. *)
Definition months_of_dates (dates : list DateCell) : list Timestamp :=
  fold_left insert_month (map month_of_cell (filter notna (map to_datetime dates))) [].

Definition or_zero (o : option V) : V :=
  match o with Some s => s | None => vzero end.

(** What one row does to the running sum of month [k] (none yet: [None]). *)
Definition total_step (k : Timestamp) (o : option V) (r : Row) : option V :=
  if in_month k r then Some (add_skipna (or_zero o) (SALES r)) else o.

(** The dates of a frame are real calendar dates (as every pandas timestamp
    is): a parsed month lies in 1..12. *)
Definition real_date (r : Row) : bool :=
  match to_datetime (ORDERDATE r) with
  | Stamp t => (1 <=? month t) && (month t <=? 12)
  | _ => true
  end.

(** The frame as lines 32-33 leave it: dates parsed, bad rows dropped. *)
Definition validated (df : list Row) : list Row :=
  dropna_ORDERDATE (parse_ORDERDATE df).

(** The grand total of a series, and the total of the SALES column of a
    frame (missing cells skipped). *)
Definition series_total (ms : list (Timestamp * V)) : V :=
  fold_right (fun e s => vadd (snd e) s) vzero ms.

Definition sales_total (df : list Row) : V :=
  fold_left add_skipna (map SALES df) vzero.

End Aggregation.

End Frame.
Export Frame.

(** ** The script as a whole (lines 8-86) *)

Module Script.

(** A Python exception, by its class name and its [str()]. *)
Record PyExc : Type := mkExc { exc_class : string; exc_msg : string }.

(** An index label of a series that statsmodels returns: a date, or a
    position when the model carries no date information. *)
Inductive Label : Type :=
  | LStamp (t : Timestamp)
  | LPos (i : Z).

Definition label_eqb (a b : Label) : bool :=
  match a, b with
  | LStamp x, LStamp y => ts_eqb x y
  | LPos i, LPos j => i =? j
  | _, _ => false
  end.

(** How a statement ends: with a value, with a raised [Exception], or with
    Streamlit's [st.stop()], whose control exception derives from
    [BaseException] and so passes through [except Exception]. *)
Inductive Result (A : Type) : Type :=
  | Val (a : A)
  | Raise (e : PyExc)
  | Stop.
Arguments Raise {A} e.
Arguments Stop {A}.

(** How the run of the script ends. *)
Inductive Termination : Type :=
  | Finished
  | Halted
  | Uncaught (e : PyExc).

Section Pipeline.

Variable V : Type.
Variable vzero : V.
Variable vadd : V -> V -> V.

(** The fitted model object of statsmodels. *)
Variable Results : Type.

(** The object [results.get_forecast(...)] returns, by the two attributes
    the script reads. *)
Record Forecast : Type := mkForecast
  { predicted_mean : list (Label * V);
    conf_int : list (Label * (V * V)) }.

(** The table [pd.read_csv] returns: the header and the rows. *)
Record DataFrame : Type := mkDataFrame
  { columns : list string; rows : list (Row V) }.

(** [forecast_df]: a date index and the column [Forecast], whose cell is
    missing where the forecast series has no value under that date. *)
Definition ForecastFrame : Type := list (Timestamp * option V).

(** What the page shows, call by call. *)
Inductive Event : Type :=
  | st_title (msg : string)
  | st_write_text (msg : string)
  | st_info (msg : string)
  | st_error (msg : string)
  | st_success (msg : string)
  | st_line_chart (data : list (Timestamp * V))
  | st_spinner (msg : string)
  | st_subheader (msg : string)
  | st_write (df : ForecastFrame)
  | st_pyplot (historical : list (Timestamp * V)) (index : list Timestamp)
              (values : list (Label * V)) (band : list (Label * (V * V)))
  | st_download_button (file_name : string) (data : ForecastFrame).

(** The libraries the script calls. *)
Record Env : Type := mkEnv
  { chardet_detect : list Byte.byte -> option string;
    read_csv : list Byte.byte -> string -> PyExc + DataFrame;
    parse_date : string -> option Timestamp;
    SARIMAX_fit : list (Timestamp * V) -> PyExc + Results;
    get_forecast : Results -> nat -> PyExc + Forecast;
    (** the iteration order of a set of strings depends on the hash seed of
        the process *)
    set_order_swapped : bool }.

Variable env : Env.

(** The state a statement works on: the page so far, and the module-level
    name [forecast_df], unbound until line 57 runs. *)
Record State : Type := mkState
  { page : list Event; forecast_df : option ForecastFrame }.

Definition M (A : Type) : Type := State -> State * Result A.

Definition ret {A} (a : A) : M A := fun s => (s, Val a).

Definition bind {A B} (m : M A) (k : A -> M B) : M B :=
  fun s =>
    match m s with
    | (s', Val a) => k a s'
    | (s', Raise e) => (s', Raise e)
    | (s', Stop) => (s', Stop)
    end.

Definition emit (e : Event) : M unit :=
  fun s => (mkState (page s ++ [e]) (forecast_df s), Val tt).

Definition raise {A} (e : PyExc) : M A := fun s => (s, Raise e).

Definition st_stop {A} : M A := fun s => (s, Stop).

Definition call {A} (r : PyExc + A) : M A :=
  match r with inl e => raise e | inr a => ret a end.

Definition assign_forecast_df (f : ForecastFrame) : M unit :=
  fun s => (mkState (page s) (Some f), Val tt).

(** [try: body except Exception as e: handler e]. *)
Definition try_except (body : M unit) (handler : PyExc -> M unit) : M unit :=
  fun s =>
    match body s with
    | (s', Raise e) => handler e s'
    | r => r
    end.

Declare Scope script_scope.
Delimit Scope script_scope with script.
Notation "x <- m ;; k" := (bind m (fun x => k))
  (at level 100, m at next level, right associativity) : script_scope.
Notation "m ;; k" := (bind m (fun _ => k))
  (at level 100, right associativity) : script_scope.
Open Scope script_scope.

(** Line 26. *)
Definition required_cols : list string := ["ORDERDATE"; "SALES"].

(** [required_cols.issubset(df.columns)]. *)
Definition issubset (s cols : list string) : bool :=
  forallb (fun c => existsb (String.eqb c) cols) s.

(** [f"{required_cols}"]: the [repr] of the set, in its iteration order. *)
Definition required_cols_repr : string :=
  if set_order_swapped env then "{'SALES', 'ORDERDATE'}" else "{'ORDERDATE', 'SALES'}".

(** Line 28. *)
Definition schema_message : string :=
  ("❌ Your file must include the columns: " ++ required_cols_repr)%string.

(** Line 74. *)
Definition generic_message (e : PyExc) : string :=
  ("❌ Error: " ++ exc_msg e)%string.

(** [monthly_sales.index[-1]]. *)
Definition index_last (ms : list (Timestamp * V)) : M Timestamp :=
  match rev ms with
  | (k, _) :: _ => ret k
  | [] => raise (mkExc "IndexError" "index -1 is out of bounds for axis 0 with size 0")
  end.

(** Line 49. *)
Definition forecast_steps : nat := 12.

(** Line 51. *)
Definition forecast_index (last : Timestamp) : list Timestamp :=
  date_range_MS (add_DateOffset_months last 1) forecast_steps.

Definition series_get (l : Label) (s : list (Label * V)) : option V :=
  match find (fun e => label_eqb (fst e) l) s with
  | Some e => Some (snd e)
  | None => None
  end.

(** Line 57: [pd.DataFrame({'Forecast': forecast_values}, index=forecast_index)].
    The series is aligned to the given index by label. *)
Definition make_forecast_df (values : list (Label * V)) (index : list Timestamp)
  : ForecastFrame :=
  map (fun d => (d, series_get (LStamp d) values)) index.

(** Lines 17-71, the body of [try].  The display calls, the charts among
    them, are recorded on the page and are taken not to raise. *)
Definition try_body (raw_data : list Byte.byte) : M unit :=
  let detected := chardet_detect env raw_data in
  let encoding := choose_encoding detected in
  df <- call (read_csv env raw_data encoding) ;;
  (if negb (issubset required_cols (columns df))
   then (emit (st_error schema_message) ;; st_stop)
   else ret tt) ;;
  let monthly := monthly_sales vzero vadd (parse_date env) (rows df) in
  emit (st_success "✅ Processed and aggregated monthly sales.") ;;
  emit (st_line_chart monthly) ;;
  emit (st_spinner "Training SARIMA model...") ;;
  results <- call (SARIMAX_fit env monthly) ;;
  forecast <- call (get_forecast env results forecast_steps) ;;
  last <- index_last monthly ;;
  let index := forecast_index last in
  let forecast_values := predicted_mean forecast in
  let band := conf_int forecast in
  emit (st_subheader "📅 Forecast (Next 12 Months)") ;;
  assign_forecast_df (make_forecast_df forecast_values index) ;;
  emit (st_write (make_forecast_df forecast_values index)) ;;
  emit (st_subheader "📈 Forecast Plot") ;;
  emit (st_pyplot monthly index forecast_values band).

(** Lines 73-74. *)
Definition handler (e : PyExc) : M unit := emit (st_error (generic_message e)).

(** Lines 81-86, at module level, after the [if]. *)
Definition download : M unit :=
  fun s =>
    match forecast_df s with
    | Some f => emit (st_download_button "forecast_output.csv" f) s
    | None => raise (mkExc "NameError" "name 'forecast_df' is not defined") s
    end.

(** The script, top to bottom. *)
Definition script (uploaded_file : option (list Byte.byte)) : M unit :=
  emit (st_title "📦 SARIMA Forecast: Order-Based Sales Data") ;;
  emit (st_write_text "Upload your order data CSV and get a monthly sales forecast.") ;;
  match uploaded_file with
  | Some raw_data => try_except (try_body raw_data) handler
  | None => emit (st_info "👈 Please upload your order CSV to get started.")
  end ;;
  download.

(** What every run shows first (lines 9-10). *)
Definition preamble : list Event :=
  [st_title "📦 SARIMA Forecast: Order-Based Sales Data";
   st_write_text "Upload your order data CSV and get a monthly sales forecast."].

(** What line 83 raises when [forecast_df] was never assigned. *)
Definition forecast_df_unbound : PyExc :=
  mkExc "NameError" "name 'forecast_df' is not defined".

(** The spec's words, for comparison with the code: a page reports a
    data-quality error when it carries an error that is neither the schema
    message nor a message of the catch-all handler, and the model was not
    started. *)
Definition reports_data_quality_error (shown : list Event) : Prop :=
  (exists msg, In (st_error msg) shown /\ msg <> schema_message
               /\ forall e, msg <> generic_message e)
  /\ ~ In (st_spinner "Training SARIMA model...") shown.

(** One run: the page it leaves and how it ends. *)
Definition run (uploaded_file : option (list Byte.byte)) : list Event * Termination :=
  match script uploaded_file (mkState [] None) with
  | (s, Val _) => (page s, Finished)
  | (s, Stop) => (page s, Halted)
  | (s, Raise e) => (page s, Uncaught e)
  end.

(** The ways a run can go, stage by stage, with the page each leaves. *)
Inductive run_case : option (list Byte.byte) -> list Event * Termination -> Prop :=
  | case_idle :
      run_case None
        (preamble ++ [st_info "👈 Please upload your order CSV to get started."],
         Uncaught forecast_df_unbound)
  | case_read_error raw e :
      read_csv env raw (choose_encoding (chardet_detect env raw)) = inl e ->
      run_case (Some raw)
        (preamble ++ [st_error (generic_message e)], Uncaught forecast_df_unbound)
  | case_schema_error raw df :
      read_csv env raw (choose_encoding (chardet_detect env raw)) = inr df ->
      issubset required_cols (columns df) = false ->
      run_case (Some raw) (preamble ++ [st_error schema_message], Halted)
  | case_model_error raw df e :
      read_csv env raw (choose_encoding (chardet_detect env raw)) = inr df ->
      issubset required_cols (columns df) = true ->
      (SARIMAX_fit env (monthly_sales vzero vadd (parse_date env) (rows df)) = inl e
       \/ (exists results,
              SARIMAX_fit env (monthly_sales vzero vadd (parse_date env) (rows df))
              = inr results
              /\ (get_forecast env results forecast_steps = inl e
                  \/ (exists fc, get_forecast env results forecast_steps = inr fc
                                 /\ monthly_sales vzero vadd (parse_date env) (rows df) = []
                                 /\ exc_class e = "IndexError")))) ->
      run_case (Some raw)
        (preamble ++
         [st_success "✅ Processed and aggregated monthly sales.";
          st_line_chart (monthly_sales vzero vadd (parse_date env) (rows df));
          st_spinner "Training SARIMA model...";
          st_error (generic_message e)],
         Uncaught forecast_df_unbound)
  | case_forecast raw df results fc pre last v :
      read_csv env raw (choose_encoding (chardet_detect env raw)) = inr df ->
      issubset required_cols (columns df) = true ->
      SARIMAX_fit env (monthly_sales vzero vadd (parse_date env) (rows df)) = inr results ->
      get_forecast env results forecast_steps = inr fc ->
      monthly_sales vzero vadd (parse_date env) (rows df) = pre ++ [(last, v)] ->
      run_case (Some raw)
        (preamble ++
         [st_success "✅ Processed and aggregated monthly sales.";
          st_line_chart (monthly_sales vzero vadd (parse_date env) (rows df));
          st_spinner "Training SARIMA model...";
          st_subheader "📅 Forecast (Next 12 Months)";
          st_write (make_forecast_df (predicted_mean fc) (forecast_index last));
          st_subheader "📈 Forecast Plot";
          st_pyplot (monthly_sales vzero vadd (parse_date env) (rows df))
                    (forecast_index last) (predicted_mean fc) (conf_int fc);
          st_download_button "forecast_output.csv"
            (make_forecast_df (predicted_mean fc) (forecast_index last))],
         Finished).

End Pipeline.

End Script.
Export Script.

(** ** Concrete instances used by the examples *)

Module Demo.

(** pandas' int64 addition wraps around. *)
Definition wrap64 (z : Z) : Z := (z + 2 ^ 63) mod 2 ^ 64 - 2 ^ 63.
Definition int64_add (a b : Z) : Z := wrap64 (a + b).

Definition digit (c : ascii) : option Z :=
  let n := Z.of_nat (nat_of_ascii c) in
  if (48 <=? n) && (n <=? 57) then Some (n - 48) else None.

Definition number (ds : list ascii) : option Z :=
  fold_left (fun acc c =>
               match acc, digit c with
               | Some a, Some d => Some (10 * a + d)
               | _, _ => None
               end) ds (Some 0).

(** A stand-in for pandas' date parser on the one format the examples use,
    [YYYY-MM-DD]; anything else is a parse failure. *)
Definition parse_iso (s : string) : option Timestamp :=
  match s with
  | String y1 (String y2 (String y3 (String y4 (String "-"
      (String m1 (String m2 (String "-" (String d1 (String d2 EmptyString))))))))) =>
      match number [y1; y2; y3; y4], number [m1; m2], number [d1; d2] with
      | Some y, Some m, Some d =>
          if (1 <=? m) && (m <=? 12) && (1 <=? d) && (d <=? days_in_month y m)
          then Some (mkTimestamp y m d 0) else None
      | _, _, _ => None
      end
  | _ => None
  end.

Definition order (date : string) (sales : Z) : Row Z := mkRow (Text date) (Some sales).

(** The rows of the spec's aggregation example. *)
Definition example_rows : list (Row Z) :=
  [order "2023-01-05" 100; order "2023-01-20" 50; order "2023-02-01" 200].

(** Orders in January and in March only. *)
Definition gap_rows : list (Row Z) :=
  [order "2023-03-14" 30; order "2023-01-09" 5].

(** A refund, a missing amount, a sale and a row whose date does not parse. *)
Definition mixed_rows : list (Row Z) :=
  [order "2023-03-05" (-100); mkRow (Text "2023-03-20") None;
   order "2023-03-25" 30; order "n/a" 7].

(** Environments for the examples: the CSV reader returns a given frame (or
    raises), the fit returns a given result. *)
Definition env_of (csv : PyExc + DataFrame Z) (fit : list (Timestamp * Z) -> PyExc + unit)
    (fc : PyExc + Forecast Z) : Env Z unit :=
  mkEnv (fun _ => Some "ascii") (fun _ _ => csv) parse_iso fit (fun _ _ => fc) false.

(** A file with the two required columns and orders up to December 2024. *)
Definition orders_2024 : DataFrame Z :=
  mkDataFrame ["ORDERDATE"; "SALES"]
    [order "2024-10-07" 40; order "2024-11-03" 10; order "2024-12-24" 20].

Definition flat_forecast : Forecast Z :=
  mkForecast
    (map (fun d => (LStamp d, 23)) (forecast_index (mkTimestamp 2024 12 1 0)))
    (map (fun d => (LStamp d, (3, 43))) (forecast_index (mkTimestamp 2024 12 1 0))).

Definition env_2024 : Env Z unit :=
  env_of (inr orders_2024) (fun _ => inr tt) (inr flat_forecast).

(** A file whose header spells the columns the way the spec does. *)
Definition spelled_frame : DataFrame Z :=
  mkDataFrame ["order date"; "sales"] [order "2024-12-24" 20].

Definition env_spelled : Env Z unit :=
  env_of (inr spelled_frame) (fun _ => inr tt) (inr flat_forecast).

(** A file in which SALES was renamed to REVENUE. *)
Definition renamed_frame : DataFrame Z :=
  mkDataFrame ["ORDERDATE"; "REVENUE"] [mkRow (Text "2024-12-24") None].

Definition env_renamed : Env Z unit :=
  env_of (inr renamed_frame) (fun _ => inr tt) (inr flat_forecast).

(** A header-only file, and a fit that rejects the empty series. *)
Definition header_only : DataFrame Z := mkDataFrame ["ORDERDATE"; "SALES"] [].

Definition empty_series_error : PyExc :=
  mkExc "ValueError" "zero-size array to reduction operation maximum which has no identity".

Definition env_header_only : Env Z unit :=
  env_of (inr header_only)
         (fun ms => match ms with [] => inl empty_series_error | _ => inr tt end)
         (inr flat_forecast).

(** An upload of zero bytes: pandas' reader raises [EmptyDataError]. *)
Definition no_columns_error : PyExc :=
  mkExc "EmptyDataError" "No columns to parse from file".

Definition env_empty_upload : Env Z unit :=
  env_of (inl no_columns_error) (fun _ => inr tt) (inr flat_forecast).




(** An upload that opens with a UTF-16 byte-order mark and then holds one
    more byte.  chardet answers UTF-16 from the mark alone; the CSV reader
    decodes with the decoder of the name it is given. *)
Definition bom_upload : list Byte.byte := [Byte.xff; Byte.xfe; Byte.x41].

Definition detect_bom (raw : list Byte.byte) : option string :=
  match raw with
  | Byte.xff :: Byte.xfe :: _ => Some "UTF-16"
  | Byte.xfe :: Byte.xff :: _ => Some "UTF-16"
  | _ => Some "ascii"
  end.

Definition truncated_data : PyExc :=
  mkExc "UnicodeDecodeError"
        "'utf-16-le' codec can't decode byte 0x41 in position 2: truncated data".

Definition read_decoding (raw : list Byte.byte) (encoding : string)
  : PyExc + DataFrame Z :=
  match decoder_of encoding with
  | Some dec =>
      match dec raw with
      | Some _ => inr orders_2024
      | None => inl truncated_data
      end
  | None => inl (mkExc "LookupError" ("unknown encoding: " ++ encoding)%string)
  end.

Definition env_bom : Env Z unit :=
  mkEnv detect_bom read_decoding parse_iso (fun _ => inr tt)
        (fun _ _ => inr flat_forecast) false.

(** A forecast labelled by position, as a model without date information
    returns it. *)
Definition position_forecast : list (Label * Z) :=
  [(LPos 3, 23); (LPos 4, 24); (LPos 5, 25)].

End Demo.

(** ** Facts about timestamps *)

Module CalendarFacts.

Ltac ts_bool :=
  unfold ts_lt, ts_ltb, ts_eqb in *; simpl in *;
  repeat rewrite ?orb_true_iff, ?andb_true_iff, ?orb_false_iff, ?andb_false_iff,
    ?Z.ltb_lt, ?Z.eqb_eq, ?Z.ltb_ge, ?Z.eqb_neq in *.

Lemma ts_eqb_eq (a b : Timestamp) : ts_eqb a b = true <-> a = b.
Proof.
  destruct a as [y m d t], b as [y' m' d' t']; ts_bool; split.
  - intros [[[-> ->] ->] ->]; reflexivity.
  - intros E; injection E; intros; subst; auto.
Qed.

Lemma ts_eqb_refl (a : Timestamp) : ts_eqb a a = true.
Proof. apply ts_eqb_eq; reflexivity. Qed.

Lemma ts_eqb_neq (a b : Timestamp) : ts_eqb a b = false <-> a <> b.
Proof.
  rewrite <- ts_eqb_eq. destruct (ts_eqb a b); split; congruence.
Qed.

Lemma ts_eqb_sym (a b : Timestamp) : ts_eqb a b = ts_eqb b a.
Proof.
  destruct (ts_eqb a b) eqn:E, (ts_eqb b a) eqn:E'; auto.
  - apply ts_eqb_eq in E; subst. rewrite ts_eqb_refl in E'; discriminate.
  - apply ts_eqb_eq in E'; subst. rewrite ts_eqb_refl in E; discriminate.
Qed.

Lemma ts_lt_irrefl (a : Timestamp) : ~ ts_lt a a.
Proof. destruct a; ts_bool; lia. Qed.

Lemma ts_lt_trans (a b c : Timestamp) : ts_lt a b -> ts_lt b c -> ts_lt a c.
Proof. destruct a, b, c; ts_bool; lia. Qed.

Lemma ts_lt_total (a b : Timestamp) :
  ts_ltb a b = false -> ts_eqb a b = false -> ts_lt b a.
Proof. destruct a, b; ts_bool; lia. Qed.

Lemma ts_lt_neq (a b : Timestamp) : ts_lt a b -> a <> b.
Proof. intros L ->; exact (ts_lt_irrefl L). Qed.

Lemma days_in_month_ge_28 (y m : Z) : 28 <= days_in_month y m.
Proof.
  unfold days_in_month.
  destruct (m =? 2); [destruct (is_leap y); lia|].
  destruct ((m =? 4) || (m =? 6) || (m =? 9) || (m =? 11)); lia.
Qed.

(** [to_timestamp] always lands on the first of a real month. *)
Lemma to_timestamp_fields (p : Z) :
  valid_month (to_timestamp p) /\ day (to_timestamp p) = 1 /\ time (to_timestamp p) = 0.
Proof.
  unfold valid_month; simpl. pose proof (Z.mod_pos_bound p 12). lia.
Qed.

(** Truncation to the month: on a real date, [month_start] keeps the year
    and the month and sets the first day, at midnight. *)
Lemma month_start_truncates (t : Timestamp) :
  valid_month t -> month_start t = mkTimestamp (year t) (month t) 1 0.
Proof.
  unfold valid_month, month_start, to_timestamp, to_period_M; intros Hm.
  f_equal.
  - replace ((year t - 1970) * 12 + (month t - 1))
      with ((month t - 1) + (year t - 1970) * 12) by lia.
    rewrite Z.div_add by lia. rewrite Z.div_small by lia. lia.
  - replace ((year t - 1970) * 12 + (month t - 1))
      with ((month t - 1) + (year t - 1970) * 12) by lia.
    rewrite Z.mod_add by lia. rewrite Z.mod_small by lia. lia.
Qed.

Lemma month_start_idem (t : Timestamp) : month_start (month_start t) = month_start t.
Proof.
  destruct (to_timestamp_fields (to_period_M t)) as (Hv & Hd & Ht).
  fold (month_start t) in Hv, Hd, Ht.
  rewrite (month_start_truncates Hv).
  destruct (month_start t); simpl in *; subst; reflexivity.
Qed.

Lemma shift_month_one (t : Timestamp) (opt : day_opt) :
  valid_month t -> day t = 1 ->
  shift_month t 1 opt =
  mkTimestamp (if month t =? 12 then year t + 1 else year t)
              (if month t =? 12 then 1 else month t + 1) 1 (time t).
Proof.
  unfold valid_month; intros Hm Hd. destruct t as [y m d tm]; simpl in *. subst d.
  unfold shift_month; simpl.
  assert (Hday : forall a b, match opt with
                             | SameDay => Z.min 1 (days_in_month a b)
                             | StartDay => 1
                             end = 1).
  { intros a b. destruct opt; auto. pose proof (days_in_month_ge_28 a b). lia. }
  destruct ((m + 1) mod 12 =? 0) eqn:E0;
    [apply Z.eqb_eq in E0 | apply Z.eqb_neq in E0];
    (destruct (m =? 12) eqn:E12;
     [apply Z.eqb_eq in E12 | apply Z.eqb_neq in E12]);
    rewrite Hday; f_equal; Z.div_mod_to_equations; lia.
Qed.

(** The code's month step on a month start is the spec's "next month". *)
Lemma MS_apply_next (t : Timestamp) :
  valid_month t -> day t = 1 -> time t = 0 -> MS_apply t = spec_next_month t.
Proof.
  intros Hm Hd Ht. unfold MS_apply. rewrite Hd; simpl.
  rewrite (shift_month_one StartDay Hm Hd). unfold spec_next_month. rewrite Ht.
  destruct (month t =? 12); reflexivity.
Qed.

Lemma add_DateOffset_next (t : Timestamp) :
  valid_month t -> day t = 1 -> time t = 0 ->
  add_DateOffset_months t 1 = spec_next_month t.
Proof.
  intros Hm Hd Ht. unfold add_DateOffset_months.
  rewrite (shift_month_one SameDay Hm Hd). unfold spec_next_month. rewrite Ht.
  destruct (month t =? 12); reflexivity.
Qed.

Lemma spec_next_month_fields (t : Timestamp) :
  valid_month t ->
  valid_month (spec_next_month t) /\ day (spec_next_month t) = 1
  /\ time (spec_next_month t) = 0.
Proof.
  unfold valid_month, spec_next_month; intros Hm.
  destruct (month t =? 12) eqn:E; simpl; [lia|].
  apply Z.eqb_neq in E. lia.
Qed.

End CalendarFacts.
Import CalendarFacts.

(** ** Facts about the aggregation *)

Module FrameFacts.

Section Aggregation.

Variable V : Type.
Variable vzero : V.
Variable vadd : V -> V -> V.
Variable parse_date : string -> option Timestamp.

Local Abbreviation Row := (Row V).
Local Abbreviation accumulate := (accumulate vzero vadd).
Local Abbreviation groupby_step := (groupby_step vzero vadd).
Local Abbreviation groupby_sum := (groupby_sum vzero vadd).
Local Abbreviation monthly_sales := (monthly_sales vzero vadd parse_date).
Local Abbreviation add_skipna := (add_skipna vadd).
Local Abbreviation row_month := (row_month parse_date).
Local Abbreviation in_month := (in_month parse_date).
Local Abbreviation month_total := (month_total vzero vadd parse_date).
Local Abbreviation total_step := (total_step vzero vadd parse_date).
Local Abbreviation validated := (validated parse_date).

Lemma keys_accumulate k x acc k' :
  In k' (keys (accumulate k x acc)) <-> k' = k \/ In k' (keys acc).
Proof.
  induction acc as [|[k0 s] rest IH]; simpl.
  - intuition.
  - destruct (ts_eqb k k0) eqn:E.
    + apply ts_eqb_eq in E; subst. simpl. intuition.
    + destruct (ts_ltb k k0); simpl; [intuition|].
      rewrite IH. intuition.
Qed.

Lemma ordered_accumulate k x acc : ordered acc -> ordered (accumulate k x acc).
Proof.
  unfold ordered. induction acc as [|[k0 s] rest IH]; simpl; intros Hs.
  - repeat constructor.
  - apply StronglySorted_inv in Hs. destruct Hs as [Hrest Hall].
    destruct (ts_eqb k k0) eqn:E; [simpl; constructor; assumption|].
    destruct (ts_ltb k k0) eqn:L.
    + simpl. constructor; [constructor; assumption|].
      constructor; [exact L|].
      rewrite Forall_forall in *. intros y Hy.
      apply (@ts_lt_trans k k0 y L). apply Hall; exact Hy.
    + simpl. constructor; [apply IH; exact Hrest|].
      rewrite Forall_forall in *. intros y Hy.
      apply keys_accumulate in Hy. destruct Hy as [-> | Hy].
      * apply ts_lt_total; [exact L | exact E].
      * apply Hall; exact Hy.
Qed.

Lemma lookup_absent k (acc : list (Timestamp * V)) :
  ~ In k (keys acc) -> lookup k acc = None.
Proof.
  unfold lookup. induction acc as [|[k0 s] rest IH]; simpl; intros Hn; auto.
  destruct (ts_eqb k0 k) eqn:E.
  - apply ts_eqb_eq in E. subst. exfalso. apply Hn. left; reflexivity.
  - apply IH. intros H. apply Hn. right; exact H.
Qed.

Lemma lookup_accumulate_same k x acc :
  ordered acc ->
  lookup k (accumulate k x acc) = Some (add_skipna (or_zero vzero (lookup k acc)) x).
Proof.
  unfold ordered. induction acc as [|[k0 s] rest IH]; simpl; intros Hs.
  - unfold lookup; simpl. rewrite ts_eqb_refl. reflexivity.
  - apply StronglySorted_inv in Hs. destruct Hs as [Hrest Hall].
    destruct (ts_eqb k k0) eqn:E.
    + unfold lookup; simpl. rewrite ts_eqb_sym, E. reflexivity.
    + destruct (ts_ltb k k0) eqn:L.
      * unfold lookup at 1; simpl. rewrite ts_eqb_refl; simpl.
        rewrite lookup_absent; [reflexivity|].
        simpl. intros [H | H].
        -- subst. rewrite ts_eqb_refl in E. discriminate.
        -- rewrite Forall_forall in Hall. apply Hall in H.
           apply (@ts_lt_irrefl k). exact (ts_lt_trans L H).
      * specialize (IH Hrest). unfold lookup in *; simpl.
        rewrite ts_eqb_sym, E. exact IH.
Qed.

Lemma lookup_accumulate_other k k' x acc :
  k' <> k -> lookup k' (accumulate k x acc) = lookup k' acc.
Proof.
  intros Hne. induction acc as [|[k0 s] rest IH]; simpl.
  - unfold lookup; simpl. apply ts_eqb_neq in Hne. rewrite ts_eqb_sym, Hne. reflexivity.
  - destruct (ts_eqb k k0) eqn:E.
    + apply ts_eqb_eq in E. subst k0. unfold lookup; simpl.
      apply ts_eqb_neq in Hne. rewrite ts_eqb_sym, Hne. reflexivity.
    + destruct (ts_ltb k k0).
      * unfold lookup at 1; simpl. apply ts_eqb_neq in Hne.
        rewrite ts_eqb_sym, Hne. reflexivity.
      * unfold lookup in *; simpl. destruct (ts_eqb k0 k'); [reflexivity | exact IH].
Qed.

Lemma lookup_In k s (acc : list (Timestamp * V)) :
  ordered acc -> (In (k, s) acc <-> lookup k acc = Some s).
Proof.
  unfold ordered. induction acc as [|[k0 s0] rest IH]; simpl; intros Hs.
  - unfold lookup; simpl. split; [tauto | discriminate].
  - apply StronglySorted_inv in Hs. destruct Hs as [Hrest Hall].
    specialize (IH Hrest). unfold lookup in *; simpl.
    destruct (ts_eqb k0 k) eqn:E.
    + apply ts_eqb_eq in E. subst k0. simpl. split.
      * intros [H | H]; [congruence|].
        exfalso. rewrite Forall_forall in Hall.
        apply (@ts_lt_irrefl k). apply Hall.
        change k with (fst (k, s)). apply in_map. exact H.
      * intros H. left. congruence.
    + split.
      * intros [H | H]; [|apply IH; exact H].
        injection H; intros; subst. rewrite ts_eqb_refl in E. discriminate.
      * intros H. right. apply IH. exact H.
Qed.

Lemma to_datetime_not_Text c s : to_datetime parse_date c <> Text s.
Proof.
  destruct c as [s0| |]; simpl; try discriminate.
  destruct (parse_date s0); discriminate.
Qed.

Lemma to_datetime_idem c :
  to_datetime parse_date (to_datetime parse_date c) = to_datetime parse_date c.
Proof.
  destruct c as [s0| |]; simpl; auto.
  destruct (parse_date s0); reflexivity.
Qed.

(** One row of the frame, through lines 32-34 and into the running sums. *)
Lemma validated_cons (r : Row) (df : list Row) :
  with_Month (validated (r :: df)) =
  match to_datetime parse_date (ORDERDATE r) with
  | NaT => with_Month (validated df)
  | c => (month_of_cell c, SALES r) :: with_Month (validated df)
  end.
Proof.
  unfold Frame.validated, dropna_ORDERDATE, parse_ORDERDATE, with_Month; simpl.
  destruct (to_datetime parse_date (ORDERDATE r)); reflexivity.
Qed.

Lemma fold_ordered rows acc :
  ordered acc -> ordered (fold_left groupby_step rows acc).
Proof.
  revert acc. induction rows as [|[o x] rows IH]; simpl; intros acc Ha; auto.
  apply IH. unfold Frame.groupby_step; simpl.
  destruct o; [apply ordered_accumulate|]; exact Ha.
Qed.

Lemma fold_lookup k (df : list Row) acc :
  ordered acc ->
  lookup k (fold_left groupby_step (with_Month (validated df)) acc) =
  fold_left (total_step k) df (lookup k acc).
Proof.
  revert acc. induction df as [|r df IH]; intros acc Ha; [reflexivity|].
  rewrite validated_cons. simpl fold_left at 2.
  unfold Frame.total_step at 2, Frame.in_month, Frame.row_month.
  destruct (to_datetime parse_date (ORDERDATE r)) as [s|t|] eqn:E.
  - exfalso. exact (to_datetime_not_Text _ E).
  - simpl. unfold Frame.groupby_step at 2; simpl.
    rewrite IH by (apply ordered_accumulate; exact Ha).
    f_equal. destruct (ts_eqb (month_start t) k) eqn:Ek.
    + apply ts_eqb_eq in Ek. subst k. apply lookup_accumulate_same. exact Ha.
    + apply lookup_accumulate_other. apply ts_eqb_neq in Ek. congruence.
  - apply IH. exact Ha.
Qed.

Lemma fold_keys k (df : list Row) acc :
  In k (keys (fold_left groupby_step (with_Month (validated df)) acc)) <->
  In k (keys acc) \/ exists r, In r df /\ row_month r = Some k.
Proof.
  revert acc. induction df as [|r df IH]; intros acc.
  - simpl. split; [auto|]. intros [H | (r & [] & _)]. exact H.
  - rewrite validated_cons.
    assert (Hr : forall P : Prop,
               (P \/ exists r0, In r0 df /\ row_month r0 = Some k) ->
               row_month r = Some k \/ P \/
               exists r0, In r0 df /\ row_month r0 = Some k) by tauto.
    unfold Frame.row_month at 1.
    destruct (to_datetime parse_date (ORDERDATE r)) as [s|t|] eqn:E.
    + exfalso. exact (to_datetime_not_Text _ E).
    + simpl fold_left. unfold Frame.groupby_step at 2; simpl.
      rewrite IH, keys_accumulate. split.
      * intros [[-> | H] | (r0 & Hin & Hm)].
        -- right. exists r. split; [left; reflexivity|].
           unfold Frame.row_month. rewrite E. reflexivity.
        -- left; exact H.
        -- right. exists r0. split; [right; exact Hin | exact Hm].
      * intros [H | (r0 & [-> | Hin] & Hm)].
        -- left; right; exact H.
        -- left; left. unfold Frame.row_month in Hm. rewrite E in Hm. congruence.
        -- right. exists r0. split; assumption.
    + rewrite IH. split.
      * intros [H | (r0 & Hin & Hm)]; [left; exact H|].
        right. exists r0. split; [right; exact Hin | exact Hm].
      * intros [H | (r0 & [-> | Hin] & Hm)]; [left; exact H | |].
        -- unfold Frame.row_month in Hm. rewrite E in Hm. discriminate.
        -- right. exists r0. split; assumption.
Qed.

Lemma filter_none (A : Type) (f : A -> bool) (l : list A) :
  existsb f l = false -> filter f l = [].
Proof.
  induction l as [|a l IH]; simpl; auto.
  destruct (f a); simpl; [discriminate | exact IH].
Qed.

(** The running sum of one month over the whole frame is the month's total,
    once the month has a row. *)
Lemma fold_total_step k (df : list Row) o :
  fold_left (total_step k) df o =
  if existsb (in_month k) df
  then Some (fold_left add_skipna (map (@SALES V) (filter (in_month k) df))
                       (or_zero vzero o))
  else o.
Proof.
  revert o. induction df as [|r df IH]; intros o; [reflexivity|].
  simpl. rewrite IH. unfold Frame.total_step.
  destruct (in_month k r); simpl; [|reflexivity].
  destruct (existsb (in_month k) df) eqn:E; [reflexivity|].
  rewrite (filter_none _ _ E). reflexivity.
Qed.

Lemma monthly_ordered (df : list Row) : ordered (monthly_sales df).
Proof. apply fold_ordered. constructor. Qed.

Lemma monthly_lookup k (df : list Row) :
  lookup k (monthly_sales df) =
  if existsb (in_month k) df then Some (month_total k df) else None.
Proof.
  unfold Frame.monthly_sales, Frame.groupby_sum.
  change (dropna_ORDERDATE (parse_ORDERDATE parse_date df)) with (validated df).
  rewrite fold_lookup by constructor.
  rewrite fold_total_step. reflexivity.
Qed.

Lemma monthly_keys k (df : list Row) :
  In k (keys (monthly_sales df)) <-> exists r, In r df /\ row_month r = Some k.
Proof.
  unfold Frame.monthly_sales, Frame.groupby_sum.
  change (dropna_ORDERDATE (parse_ORDERDATE parse_date df)) with (validated df).
  rewrite fold_keys. simpl. tauto.
Qed.

Lemma existsb_in_month k (df : list Row) :
  existsb (in_month k) df = true <-> exists r, In r df /\ row_month r = Some k.
Proof.
  rewrite existsb_exists. unfold Frame.in_month.
  split; intros (r & Hin & H); exists r; split; auto.
  - destruct (row_month r) as [k'|]; [|discriminate].
    apply ts_eqb_eq in H. congruence.
  - rewrite H. apply ts_eqb_refl.
Qed.

Lemma sorted_NoDup (l : list Timestamp) : StronglySorted ts_lt l -> NoDup l.
Proof.
  induction 1 as [|a l Hs IH Hall]; constructor; auto.
  intros Hin. rewrite Forall_forall in Hall.
  exact (ts_lt_irrefl (Hall _ Hin)).
Qed.

Lemma validated_idem (df : list Row) : validated (validated df) = validated df.
Proof.
  unfold Frame.validated, dropna_ORDERDATE, parse_ORDERDATE.
  induction df as [|r df IH]; [reflexivity|]. simpl.
  destruct (notna (to_datetime parse_date (ORDERDATE r))) eqn:E; [|exact IH].
  simpl. rewrite to_datetime_idem, E. f_equal. exact IH.
Qed.

Lemma monthly_lookup_fold k (df : list Row) :
  lookup k (monthly_sales df) = fold_left (total_step k) df None.
Proof.
  unfold Frame.monthly_sales, Frame.groupby_sum.
  change (dropna_ORDERDATE (parse_ORDERDATE parse_date df)) with (validated df).
  rewrite fold_lookup by constructor. reflexivity.
Qed.

Lemma keys_accumulate_insert k x acc :
  keys (accumulate k x acc) = insert_key k (keys acc).
Proof.
  induction acc as [|[k0 s] rest IH]; simpl; [reflexivity|].
  destruct (ts_eqb k k0); [reflexivity|].
  destruct (ts_ltb k k0); [reflexivity|].
  simpl. f_equal. exact IH.
Qed.

Lemma keys_fold rows acc :
  keys (fold_left groupby_step rows acc) =
  fold_left insert_month (map fst rows) (keys acc).
Proof.
  revert acc. induction rows as [|[o x] rows IH]; intros acc; [reflexivity|].
  simpl. rewrite IH. f_equal. unfold Frame.groupby_step; simpl.
  destruct o; [apply keys_accumulate_insert | reflexivity].
Qed.

Lemma months_validated (df : list Row) :
  map fst (with_Month (validated df)) =
  map month_of_cell
      (filter notna (map (to_datetime parse_date) (map (@ORDERDATE V) df))).
Proof.
  unfold Frame.validated, dropna_ORDERDATE, parse_ORDERDATE, with_Month.
  induction df as [|r df IH]; [reflexivity|]. simpl.
  destruct (notna (to_datetime parse_date (ORDERDATE r))); simpl; [f_equal|]; exact IH.
Qed.

(** The months of the series are computed from the date column alone. *)
Lemma monthly_keys_dates (df : list Row) :
  keys (monthly_sales df) = months_of_dates parse_date (map (@ORDERDATE V) df).
Proof.
  unfold Frame.monthly_sales, Frame.groupby_sum, months_of_dates.
  rewrite keys_fold.
  change (dropna_ORDERDATE (parse_ORDERDATE parse_date df)) with (validated df).
  rewrite months_validated. reflexivity.
Qed.

(** On real dates the code's month key is the spec's truncation. *)
Lemma in_month_falls_in k (r : Row) :
  real_date parse_date r = true -> in_month k r = falls_in parse_date k r.
Proof.
  unfold real_date, Frame.in_month, Frame.row_month, falls_in.
  destruct (to_datetime parse_date (ORDERDATE r)) as [s|t|]; auto.
  intros H. apply andb_true_iff in H. destruct H as [H1 H2].
  apply Z.leb_le in H1, H2.
  rewrite month_start_truncates by (unfold valid_month; lia). reflexivity.
Qed.

Lemma month_total_spec k (df : list Row) :
  forallb (real_date parse_date) df = true ->
  month_total k df = spec_month_total vzero vadd parse_date k df.
Proof.
  intros H. unfold Frame.month_total, spec_month_total. do 2 f_equal.
  apply filter_ext_in. intros r Hr. apply in_month_falls_in.
  rewrite forallb_forall in H. apply H. exact Hr.
Qed.

(** Every month of the series is the first instant of a real month. *)
Lemma keys_month_start k (df : list Row) :
  In k (keys (monthly_sales df)) -> valid_month k /\ day k = 1 /\ time k = 0.
Proof.
  intros H. apply monthly_keys in H. destruct H as (r & _ & Hr).
  unfold Frame.row_month in Hr.
  destruct (to_datetime parse_date (ORDERDATE r)); try discriminate.
  injection Hr as <-. apply to_timestamp_fields.
Qed.

Lemma accumulate_length k x acc :
  (List.length (accumulate k x acc) <= S (List.length acc))%nat.
Proof.
  induction acc as [|[k0 s] rest IH]; simpl; [lia|].
  destruct (ts_eqb k k0); simpl; [lia|].
  destruct (ts_ltb k k0); simpl; lia.
Qed.

Lemma fold_length rows acc :
  (List.length (fold_left groupby_step rows acc)
   <= List.length rows + List.length acc)%nat.
Proof.
  revert acc. induction rows as [|[o x] rows IH]; intros acc; simpl; [lia|].
  specialize (IH (groupby_step acc (o, x))).
  assert (List.length (groupby_step acc (o, x)) <= S (List.length acc))%nat.
  { unfold Frame.groupby_step; simpl. destruct o; [apply accumulate_length | lia]. }
  lia.
Qed.

Lemma validated_cons_rows (r : Row) (df : list Row) :
  validated (r :: df) =
  match to_datetime parse_date (ORDERDATE r) with
  | NaT => validated df
  | c => mkRow c (SALES r) :: validated df
  end.
Proof.
  unfold Frame.validated, dropna_ORDERDATE, parse_ORDERDATE; simpl.
  destruct (to_datetime parse_date (ORDERDATE r)); reflexivity.
Qed.

Section Laws.

Hypothesis vadd_assoc : forall a b c, vadd (vadd a b) c = vadd a (vadd b c).
Hypothesis vadd_comm : forall a b, vadd a b = vadd b a.

Hypothesis vzero_left : forall a, vadd vzero a = a.

Lemma series_total_accumulate k x acc :
  series_total vzero vadd (accumulate k x acc)
  = add_skipna (series_total vzero vadd acc) x.
Proof.
  induction acc as [|[k0 s] rest IH]; simpl.
  - destruct x as [v|]; simpl; [rewrite (vadd_comm _ vzero)|]; apply vzero_left.
  - destruct (ts_eqb k k0); simpl.
    + destruct x as [v|]; simpl; [|reflexivity].
      rewrite !vadd_assoc. f_equal. apply vadd_comm.
    + destruct (ts_ltb k k0); simpl.
      * destruct x as [v|]; simpl; rewrite vzero_left; [apply vadd_comm | reflexivity].
      * rewrite IH. destruct x as [v|]; simpl; [symmetry; apply vadd_assoc | reflexivity].
Qed.

Lemma series_total_fold (df : list Row) acc :
  series_total vzero vadd (fold_left groupby_step (with_Month (validated df)) acc)
  = fold_left add_skipna (map (@SALES V) (validated df)) (series_total vzero vadd acc).
Proof.
  revert acc. induction df as [|r df IH]; intros acc; [reflexivity|].
  rewrite validated_cons_rows.
  destruct (to_datetime parse_date (ORDERDATE r)) as [s|t|] eqn:E.
  - exfalso. exact (to_datetime_not_Text _ E).
  - simpl. rewrite IH. unfold Frame.groupby_step; simpl.
    rewrite series_total_accumulate. reflexivity.
  - apply IH.
Qed.

End Laws.

End Aggregation.

End FrameFacts.
Import FrameFacts.

(** ** Facts about the run of the script *)

Module ScriptFacts.

Lemma generate_range_following (t : Timestamp) (n : nat) :
  valid_month t ->
  generate_range (spec_next_month t) n = spec_following_months t n.
Proof.
  revert t. induction n as [|n IH]; intros t Hm; [reflexivity|].
  destruct (spec_next_month_fields Hm) as (Hm' & Hd' & Ht').
  simpl. f_equal. rewrite (MS_apply_next Hm' Hd' Ht'). apply IH. exact Hm'.
Qed.

(** Line 51 on a month start: the months that follow it. *)
Lemma forecast_index_following (last : Timestamp) :
  valid_month last -> day last = 1 -> time last = 0 ->
  forecast_index last = spec_following_months last 12.
Proof.
  intros Hm Hd Ht. unfold forecast_index, date_range_MS.
  rewrite (add_DateOffset_next Hm Hd Ht).
  destruct (spec_next_month_fields Hm) as (Hm' & Hd' & Ht').
  unfold MS_rollforward, MS_is_on_offset. rewrite Hd'. simpl (1 =? 1).
  cbv iota. apply generate_range_following. exact Hm.
Qed.


Lemma next_month_later (t : Timestamp) :
  valid_month t -> ts_lt t (spec_next_month t).
Proof.
  unfold valid_month, spec_next_month. destruct t as [y m d tm]; simpl.
  intros Hm. destruct (m =? 12) eqn:E;
    [apply Z.eqb_eq in E | apply Z.eqb_neq in E]; ts_bool; lia.
Qed.

Lemma following_months_later (t : Timestamp) (n : nat) :
  valid_month t -> Forall (ts_lt t) (spec_following_months t n).
Proof.
  revert t. induction n as [|n IH]; intros t Hm; simpl; constructor.
  - apply next_month_later. exact Hm.
  - destruct (spec_next_month_fields Hm) as (Hm' & _ & _).
    specialize (IH _ Hm'). rewrite Forall_forall in *. intros d Hd.
    apply (@ts_lt_trans t (spec_next_month t) d);
      [apply next_month_later; exact Hm | apply IH; exact Hd].
Qed.

Lemma following_months_sorted (t : Timestamp) (n : nat) :
  valid_month t -> StronglySorted ts_lt (spec_following_months t n).
Proof.
  revert t. induction n as [|n IH]; intros t Hm; simpl; constructor.
  - apply IH. apply spec_next_month_fields. exact Hm.
  - apply following_months_later. apply spec_next_month_fields. exact Hm.
Qed.

Lemma sorted_before_last (l : list Timestamp) (x : Timestamp) :
  StronglySorted ts_lt (l ++ [x]) -> Forall (fun y => ts_lt y x) l.
Proof.
  induction l as [|a l IH]; simpl; intros Hs; constructor.
  - apply StronglySorted_inv in Hs. destruct Hs as [_ Ha].
    rewrite Forall_forall in Ha. apply Ha. apply in_or_app. right. left. reflexivity.
  - apply IH. apply StronglySorted_inv in Hs. tauto.
Qed.

Section Alignment.

Variable V : Type.




Lemma series_get_positions (values : list (Label * V)) (d : Timestamp) :
  Forall (fun e => exists i, fst e = LPos i) values ->
  series_get (LStamp d) values = None.
Proof.
  unfold series_get. induction 1 as [|[l x] values (i & Hi) _ IH]; [reflexivity|].
  simpl in *. subst l. simpl. exact IH.
Qed.

Lemma series_get_dated (index : list Timestamp) (vs : list V) (d : Timestamp) (x : V) :
  NoDup index ->
  In (d, x) (combine index vs) ->
  series_get (LStamp d) (combine (map LStamp index) vs) = Some x.
Proof.
  unfold series_get. revert vs.
  induction index as [|d0 index IH]; intros [|v vs] Hnd Hin; simpl in *; try tauto.
  apply NoDup_cons_iff in Hnd. destruct Hnd as [Hnot Hnd].
  destruct Hin as [E | Hin].
  - injection E as -> ->. rewrite ts_eqb_refl. reflexivity.
  - destruct (ts_eqb d0 d) eqn:E.
    + apply ts_eqb_eq in E. subst d0. exfalso. apply Hnot.
      apply in_combine_l in Hin. exact Hin.
    + apply IH; assumption.
Qed.

End Alignment.

Section Runs.

Variable V : Type.
Variable vzero : V.
Variable vadd : V -> V -> V.
Variable Results : Type.
Variable env : Env V Results.

Local Abbreviation run := (run vzero vadd env).
Local Abbreviation monthly := (monthly_sales vzero vadd (parse_date env)).

Variable raw_data : list Byte.byte.

Ltac reduce := cbv beta iota zeta delta [page forecast_df].

Ltac run_steps :=
  unfold Script.run, script, try_except, try_body, download, handler,
    bind, emit, call, raise, ret, st_stop, assign_forecast_df, index_last;
  reduce.

(** No upload: the hint is shown, then line 83 fails. *)
Lemma run_idle :
  run None =
  (preamble V ++ [st_info V "👈 Please upload your order CSV to get started."],
   Uncaught forecast_df_unbound).
Proof. reflexivity. Qed.

Lemma run_read_error e :
  read_csv env raw_data (choose_encoding (chardet_detect env raw_data)) = inl e ->
  run (Some raw_data) =
  (preamble V ++ [st_error V (generic_message e)], Uncaught forecast_df_unbound).
Proof. intros Hread. run_steps. rewrite Hread. reflexivity. Qed.

Lemma run_schema_error df :
  read_csv env raw_data (choose_encoding (chardet_detect env raw_data)) = inr df ->
  issubset required_cols (columns df) = false ->
  run (Some raw_data) = (preamble V ++ [st_error V (schema_message env)], Halted).
Proof.
  intros Hread Hcols. run_steps. rewrite Hread; reduce. rewrite Hcols. reflexivity.
Qed.

Lemma run_fit_error df e :
  read_csv env raw_data (choose_encoding (chardet_detect env raw_data)) = inr df ->
  issubset required_cols (columns df) = true ->
  SARIMAX_fit env (monthly (rows df)) = inl e ->
  run (Some raw_data) =
  (preamble V ++
   [st_success V "✅ Processed and aggregated monthly sales.";
    st_line_chart (monthly (rows df));
    st_spinner V "Training SARIMA model...";
    st_error V (generic_message e)],
   Uncaught forecast_df_unbound).
Proof.
  intros Hread Hcols Hfit. run_steps. rewrite Hread; reduce.
  rewrite Hcols; reduce. simpl negb; reduce. rewrite Hfit. reflexivity.
Qed.

Lemma run_success df results fc pre last v :
  read_csv env raw_data (choose_encoding (chardet_detect env raw_data)) = inr df ->
  issubset required_cols (columns df) = true ->
  SARIMAX_fit env (monthly (rows df)) = inr results ->
  get_forecast env results forecast_steps = inr fc ->
  monthly (rows df) = pre ++ [(last, v)] ->
  run (Some raw_data) =
  (preamble V ++
   [st_success V "✅ Processed and aggregated monthly sales.";
    st_line_chart (monthly (rows df));
    st_spinner V "Training SARIMA model...";
    st_subheader V "📅 Forecast (Next 12 Months)";
    st_write (make_forecast_df (predicted_mean fc) (forecast_index last));
    st_subheader V "📈 Forecast Plot";
    st_pyplot (monthly (rows df)) (forecast_index last) (predicted_mean fc) (conf_int fc);
    st_download_button "forecast_output.csv"
      (make_forecast_df (predicted_mean fc) (forecast_index last))],
   Finished).
Proof.
  intros Hread Hcols Hfit Hfc Hlast. run_steps. rewrite Hread; reduce.
  rewrite Hcols; simpl negb; reduce. rewrite Hfit; reduce. rewrite Hfc; reduce.
  assert (Hrev : rev (monthly (rows df)) = (last, v) :: rev pre)
    by (rewrite Hlast, rev_app_distr; reflexivity).
  rewrite Hrev. reflexivity.
Qed.

(** With no month in the series the run still starts the model; whatever
    fails first after that goes through the catch-all handler. *)
Lemma run_empty_series df :
  read_csv env raw_data (choose_encoding (chardet_detect env raw_data)) = inr df ->
  issubset required_cols (columns df) = true ->
  monthly (rows df) = [] ->
  exists e,
    fst (run (Some raw_data)) =
    preamble V ++
    [st_success V "✅ Processed and aggregated monthly sales.";
     st_line_chart (@nil (Timestamp * V));
     st_spinner V "Training SARIMA model...";
     st_error V (generic_message e)]
    /\ (SARIMAX_fit env [] = inl e
        \/ (exists results, SARIMAX_fit env [] = inr results
                            /\ get_forecast env results forecast_steps = inl e)
        \/ exc_class e = "IndexError").
Proof.
  intros Hread Hcols Hempty. run_steps. rewrite Hread; reduce.
  rewrite Hcols; simpl negb; reduce. rewrite Hempty.
  destruct (SARIMAX_fit env []) as [e | results] eqn:Hfit; reduce.
  - exists e. split; [reflexivity | left; reflexivity].
  - destruct (get_forecast env results forecast_steps) as [e | fc] eqn:Hfc; reduce.
    + exists e. split; [reflexivity|]. right; left. exists results. split; auto.
    + simpl rev. reduce.
      exists (mkExc "IndexError" "index -1 is out of bounds for axis 0 with size 0").
      split; [reflexivity | right; right; reflexivity].
Qed.

Lemma run_forecast_error df results e :
  read_csv env raw_data (choose_encoding (chardet_detect env raw_data)) = inr df ->
  issubset required_cols (columns df) = true ->
  SARIMAX_fit env (monthly (rows df)) = inr results ->
  get_forecast env results forecast_steps = inl e ->
  run (Some raw_data) =
  (preamble V ++
   [st_success V "✅ Processed and aggregated monthly sales.";
    st_line_chart (monthly (rows df));
    st_spinner V "Training SARIMA model...";
    st_error V (generic_message e)],
   Uncaught forecast_df_unbound).
Proof.
  intros Hread Hcols Hfit Hfc. run_steps. rewrite Hread; reduce.
  rewrite Hcols; simpl negb; reduce. rewrite Hfit; reduce. rewrite Hfc. reflexivity.
Qed.

Lemma run_index_error df results fc :
  read_csv env raw_data (choose_encoding (chardet_detect env raw_data)) = inr df ->
  issubset required_cols (columns df) = true ->
  SARIMAX_fit env (monthly (rows df)) = inr results ->
  get_forecast env results forecast_steps = inr fc ->
  monthly (rows df) = [] ->
  run (Some raw_data) =
  (preamble V ++
   [st_success V "✅ Processed and aggregated monthly sales.";
    st_line_chart (monthly (rows df));
    st_spinner V "Training SARIMA model...";
    st_error V (generic_message
                  (mkExc "IndexError" "index -1 is out of bounds for axis 0 with size 0"))],
   Uncaught forecast_df_unbound).
Proof.
  intros Hread Hcols Hfit Hfc Hempty. run_steps. rewrite Hread; reduce.
  rewrite Hcols; simpl negb; reduce. rewrite Hfit; reduce. rewrite Hfc; reduce.
  rewrite Hempty. reflexivity.
Qed.

(** Every run with an upload goes one of the ways of [run_case]. *)
Lemma run_cases_upload :
  run_case vzero vadd env (Some raw_data) (run (Some raw_data)).
Proof.
  destruct (read_csv env raw_data (choose_encoding (chardet_detect env raw_data)))
    as [e | df] eqn:Hread.
  { rewrite (run_read_error Hread). apply case_read_error. exact Hread. }
  destruct (issubset required_cols (columns df)) eqn:Hcols.
  2:{ rewrite (run_schema_error Hread Hcols). eapply case_schema_error; eassumption. }
  destruct (SARIMAX_fit env (monthly (rows df))) as [e | results] eqn:Hfit.
  { rewrite (run_fit_error Hread Hcols Hfit).
    eapply case_model_error; try eassumption. left. exact Hfit. }
  destruct (get_forecast env results forecast_steps) as [e | fc] eqn:Hfc.
  { rewrite (run_forecast_error Hread Hcols Hfit Hfc).
    eapply case_model_error; try eassumption.
    right. exists results. split; [exact Hfit | left; exact Hfc]. }
  destruct (monthly (rows df)) as [|p ms] eqn:Hms.
  - rewrite <- Hms in Hfit.
    rewrite (run_index_error Hread Hcols Hfit Hfc Hms).
    eapply case_model_error; try eassumption.
    right. exists results. split; [exact Hfit|].
    right. exists fc. auto.
  - assert (Hne : p :: ms <> []) by discriminate.
    destruct (exists_last Hne) as (pre & [last v] & Hlast).
    rewrite <- Hms in Hlast, Hfit.
    rewrite (run_success pre last v Hread Hcols Hfit Hfc Hlast).
    eapply case_forecast; eassumption.
Qed.

End Runs.

Lemma run_cases (V : Type) (vzero : V) (vadd : V -> V -> V) (Results : Type)
  (env : Env V Results) (uploaded_file : option (list Byte.byte)) :
  run_case vzero vadd env uploaded_file (run vzero vadd env uploaded_file).
Proof.
  destruct uploaded_file as [raw|]; [apply run_cases_upload | apply case_idle].
Qed.

End ScriptFacts.
Import ScriptFacts.

(** ** The monthly aggregation: what the script guarantees *)

(** C2.  For a frame whose dates are real calendar dates, the monthly series
    has an entry [(k, s)] exactly when some row's parsed date truncates to
    the first day of month [k], and then [s] is the sum of the sales of all
    the rows that fall in [k]; and the three example orders of January and
    February 2023 aggregate to 150 and 200. *)
Theorem monthly_sales_sums_by_truncated_month
  (V : Type) (vzero : V) (vadd : V -> V -> V)
  (parse_date : string -> option Timestamp) (df : list (Row V))
  (Hreal : forallb (real_date parse_date) df = true) :
  (forall k s,
      In (k, s) (monthly_sales vzero vadd parse_date df) <->
      (exists r t, In r df /\ to_datetime parse_date (ORDERDATE r) = Stamp t
                   /\ k = truncate_to_month t)
      /\ s = spec_month_total vzero vadd parse_date k df)
  /\ monthly_sales 0 Demo.int64_add Demo.parse_iso Demo.example_rows
     = [(mkTimestamp 2023 1 1 0, 150); (mkTimestamp 2023 2 1 0, 200)].
Proof.
  split; [|reflexivity].
  intros k s.
  rewrite (lookup_In vzero vadd k s (monthly_ordered vzero vadd parse_date df)).
  rewrite monthly_lookup, (month_total_spec vzero vadd parse_date k df Hreal).
  assert (Hex : existsb (in_month parse_date k) df = true <->
                exists r t, In r df /\ to_datetime parse_date (ORDERDATE r) = Stamp t
                            /\ k = truncate_to_month t).
  { rewrite existsb_exists. split.
    - intros (r & Hin & Hk). exists r.
      rewrite in_month_falls_in in Hk
        by (rewrite forallb_forall in Hreal; apply Hreal; exact Hin).
      unfold falls_in in Hk.
      destruct (to_datetime parse_date (ORDERDATE r)) as [x|t|]; try discriminate.
      exists t. apply ts_eqb_eq in Hk. auto.
    - intros (r & t & Hin & Et & ->). exists r. split; [exact Hin|].
      rewrite in_month_falls_in
        by (rewrite forallb_forall in Hreal; apply Hreal; exact Hin).
      unfold falls_in. rewrite Et. apply ts_eqb_refl. }
  destruct (existsb (in_month parse_date k) df).
  - split.
    + intros E. split; [apply Hex; reflexivity | congruence].
    + intros [_ ->]. reflexivity.
  - split; [discriminate|].
    intros [H _]. apply Hex in H. discriminate.
Qed.

Lemma monthly_sales_sums_by_truncated_month_witness :
  forallb (real_date Demo.parse_iso) Demo.example_rows = true
  /\ In (mkTimestamp 2023 1 1 0, 150)
        (monthly_sales 0 Demo.int64_add Demo.parse_iso Demo.example_rows).
Proof.
  split; [reflexivity|].
  apply (proj1 (@monthly_sales_sums_by_truncated_month Z 0 Demo.int64_add
                  Demo.parse_iso Demo.example_rows eq_refl)).
  split; [|reflexivity].
  exists (Demo.order "2023-01-05" 100), (mkTimestamp 2023 1 5 0).
  split; [left; reflexivity | split; reflexivity].
Defined.

(** C7.  The monthly series is in strictly ascending order of month and no
    month occurs twice; a month is in the series exactly when some row with
    a parseable date falls in it, so a month without orders is absent (orders
    in January and March give a series of two entries, with no February). *)
Theorem monthly_sales_ascending_without_gap_filling
  (V : Type) (vzero : V) (vadd : V -> V -> V)
  (parse_date : string -> option Timestamp) (df : list (Row V)) :
  StronglySorted ts_lt (keys (monthly_sales vzero vadd parse_date df))
  /\ NoDup (keys (monthly_sales vzero vadd parse_date df))
  /\ (forall k, In k (keys (monthly_sales vzero vadd parse_date df)) <->
                exists r, In r df /\ row_month parse_date r = Some k)
  /\ monthly_sales 0 Demo.int64_add Demo.parse_iso Demo.gap_rows
     = [(mkTimestamp 2023 1 1 0, 5); (mkTimestamp 2023 3 1 0, 30)].
Proof.
  pose proof (monthly_ordered vzero vadd parse_date df) as Ho.
  split; [exact Ho|].
  split; [apply sorted_NoDup; exact Ho|].
  split; [intros k; apply monthly_keys | reflexivity].
Qed.

(** C9.  No check is made on the sales column: the months of the series are
    computed from the date column alone, and a row that falls in month [k]
    extends that month's total by its sales cell as it is, a value of either
    sign being added and a missing value adding nothing.  A refund of 100, a
    missing amount and a sale of 30 in March 2023 total -70. *)
Theorem sales_summed_without_validation
  (V : Type) (vzero : V) (vadd : V -> V -> V)
  (parse_date : string -> option Timestamp) (df : list (Row V)) :
  keys (monthly_sales vzero vadd parse_date df)
    = months_of_dates parse_date (map (@ORDERDATE V) df)
  /\ (forall r k,
         row_month parse_date r = Some k ->
         lookup k (monthly_sales vzero vadd parse_date (df ++ [r])) =
         Some (match SALES r with
               | Some v => vadd (or_zero vzero (lookup k (monthly_sales vzero vadd parse_date df))) v
               | None => or_zero vzero (lookup k (monthly_sales vzero vadd parse_date df))
               end))
  /\ monthly_sales 0 Demo.int64_add Demo.parse_iso Demo.mixed_rows
     = [(mkTimestamp 2023 3 1 0, -70)].
Proof.
  split; [apply monthly_keys_dates|].
  split; [|reflexivity].
  intros r k Hk.
  rewrite !monthly_lookup_fold, fold_left_app. simpl.
  unfold total_step at 1, in_month. rewrite Hk, ts_eqb_refl.
  destruct (SALES r); reflexivity.
Qed.

Lemma sales_summed_without_validation_witness :
  lookup (mkTimestamp 2023 1 1 0)
         (monthly_sales 0 Demo.int64_add Demo.parse_iso
            (Demo.example_rows ++ [Demo.order "2023-01-31" (-500)]))
  = Some (-350).
Proof.
  exact (proj1 (proj2 (sales_summed_without_validation 0 Demo.int64_add
                         Demo.parse_iso Demo.example_rows))
           (Demo.order "2023-01-31" (-500)) (mkTimestamp 2023 1 1 0) eq_refl).
Defined.

(** C10.  Running the aggregation again on the rows the first run validated
    (dates parsed, bad rows dropped) gives the very same monthly series. *)
Theorem monthly_sales_idempotent
  (V : Type) (vzero : V) (vadd : V -> V -> V)
  (parse_date : string -> option Timestamp) (df : list (Row V)) :
  monthly_sales vzero vadd parse_date (validated parse_date df)
  = monthly_sales vzero vadd parse_date df.
Proof.
  unfold monthly_sales.
  change (dropna_ORDERDATE (parse_ORDERDATE parse_date (validated parse_date df)))
    with (validated parse_date (validated parse_date df)).
  rewrite validated_idem. reflexivity.
Qed.

(** ** The forecast dates *)




(** ** The required columns *)

Lemma issubset_required (cols : list string) :
  issubset required_cols cols = true <-> In "ORDERDATE" cols /\ In "SALES" cols.
Proof.
  unfold issubset, required_cols. cbn [forallb].
  rewrite !andb_true_iff, !existsb_exists.
  split.
  - intros ((x & Hx & Ex) & (y & Hy & Ey) & _).
    apply String.eqb_eq in Ex, Ey. subst. auto.
  - intros [H1 H2]. repeat split.
    + exists "ORDERDATE". split; [exact H1 | apply String.eqb_refl].
    + exists "SALES". split; [exact H2 | apply String.eqb_refl].
Qed.

(** C3, as the code has it.  The columns the loader looks for are named
    ORDERDATE and SALES, compared exactly; when one of them is absent the run
    shows one error and stops there ([st.stop()], nothing retried, nothing
    raised); the error lists both required names, whichever is missing. *)
Theorem required_columns_checked
  (V : Type) (vzero : V) (vadd : V -> V -> V) (Results : Type)
  (env : Env V Results) (raw_data : list Byte.byte) (df : DataFrame V)
  (Hread : read_csv env raw_data (choose_encoding (chardet_detect env raw_data)) = inr df)
  (Hmissing : ~ (In "ORDERDATE" (columns df) /\ In "SALES" (columns df))) :
  run vzero vadd env (Some raw_data)
  = (preamble V ++ [st_error V (schema_message env)], Halted)
  /\ (schema_message env = "❌ Your file must include the columns: {'ORDERDATE', 'SALES'}"
      \/ schema_message env = "❌ Your file must include the columns: {'SALES', 'ORDERDATE'}").
Proof.
  split.
  - eapply run_schema_error; [exact Hread|].
    destruct (issubset required_cols (columns df)) eqn:E; [|reflexivity].
    apply issubset_required in E. contradiction.
  - unfold schema_message, required_cols_repr.
    destruct (set_order_swapped env); [right | left]; reflexivity.
Qed.

Lemma required_columns_checked_witness :
  run 0 Demo.int64_add Demo.env_renamed (Some [])
  = (preamble Z ++ [st_error Z (schema_message Demo.env_renamed)], Halted)
  /\ (schema_message Demo.env_renamed
      = "❌ Your file must include the columns: {'ORDERDATE', 'SALES'}"
      \/ schema_message Demo.env_renamed
         = "❌ Your file must include the columns: {'SALES', 'ORDERDATE'}").
Proof.
  apply (@required_columns_checked Z 0 Demo.int64_add unit Demo.env_renamed []
           Demo.renamed_frame).
  - reflexivity.
  - simpl. intros [_ [H | [H | []]]]; discriminate.
Defined.

(** C3 as the spec words it fails: a file whose header has the columns
    "order date" and "sales" is rejected, and the other way round a file
    without them but with ORDERDATE and SALES goes through to the forecast;
    and when only SALES is missing the error still names ORDERDATE. *)
Lemma spelled_columns_rejected :
  issubset ["order date"; "sales"] (columns Demo.spelled_frame) = true
  /\ run 0 Demo.int64_add Demo.env_spelled (Some [])
     = (preamble Z ++
        [st_error Z "❌ Your file must include the columns: {'ORDERDATE', 'SALES'}"],
        Halted)
  /\ issubset ["order date"; "sales"] (columns Demo.orders_2024) = false
  /\ snd (run 0 Demo.int64_add Demo.env_2024 (Some [])) = Finished
  /\ In "ORDERDATE" (columns Demo.renamed_frame)
  /\ run 0 Demo.int64_add Demo.env_renamed (Some [])
     = (preamble Z ++
        [st_error Z "❌ Your file must include the columns: {'ORDERDATE', 'SALES'}"],
        Halted).
Proof.
  repeat split; try reflexivity. left; reflexivity.
Qed.

(** ** An empty series *)

(** C4, as the code has it.  When no row is left after the rows with bad
    dates are dropped, the monthly series is empty and the run goes on as
    for any other file: it announces the aggregation, charts the empty
    series and starts the model on it.  The one error it then shows comes
    from the catch-all handler, so the page never reports a data-quality
    error of its own. *)
Theorem empty_series_reaches_the_model
  (V : Type) (vzero : V) (vadd : V -> V -> V) (Results : Type)
  (env : Env V Results) (raw_data : list Byte.byte) (df : DataFrame V)
  (Hread : read_csv env raw_data (choose_encoding (chardet_detect env raw_data)) = inr df)
  (Hcols : issubset required_cols (columns df) = true)
  (Hzero : validated (parse_date env) (rows df) = []) :
  monthly_sales vzero vadd (parse_date env) (rows df) = []
  /\ (exists e,
         fst (run vzero vadd env (Some raw_data)) =
         preamble V ++
         [st_success V "✅ Processed and aggregated monthly sales.";
          st_line_chart (@nil (Timestamp * V));
          st_spinner V "Training SARIMA model...";
          st_error V (generic_message e)])
  /\ (forall e, SARIMAX_fit env [] = inl e ->
                fst (run vzero vadd env (Some raw_data)) =
                preamble V ++
                [st_success V "✅ Processed and aggregated monthly sales.";
                 st_line_chart (@nil (Timestamp * V));
                 st_spinner V "Training SARIMA model...";
                 st_error V (generic_message e)])
  /\ ~ reports_data_quality_error env (fst (run vzero vadd env (Some raw_data))).
Proof.
  assert (Hempty : monthly_sales vzero vadd (parse_date env) (rows df) = []).
  { unfold monthly_sales.
    change (dropna_ORDERDATE (parse_ORDERDATE (parse_date env) (rows df)))
      with (validated (parse_date env) (rows df)).
    rewrite Hzero. reflexivity. }
  destruct (run_empty_series vzero vadd env raw_data Hread Hcols Hempty)
    as (e & Hpage & Hwhy).
  split; [exact Hempty|].
  split; [exists e; exact Hpage|].
  split.
  - intros e' Hfit. rewrite <- Hempty in Hfit.
    rewrite (run_fit_error vzero vadd env raw_data Hread Hcols Hfit).
    rewrite Hempty. reflexivity.
  - intros [_ Hno]. apply Hno. rewrite Hpage.
    apply in_or_app. right. simpl. auto.
Qed.

Lemma empty_series_reaches_the_model_witness :
  monthly_sales 0 Demo.int64_add Demo.parse_iso (rows Demo.header_only) = []
  /\ (exists e,
         fst (run 0 Demo.int64_add Demo.env_header_only (Some [])) =
         preamble Z ++
         [st_success Z "✅ Processed and aggregated monthly sales.";
          st_line_chart (@nil (Timestamp * Z));
          st_spinner Z "Training SARIMA model...";
          st_error Z (generic_message e)])
  /\ (forall e, SARIMAX_fit Demo.env_header_only [] = inl e ->
                fst (run 0 Demo.int64_add Demo.env_header_only (Some [])) =
                preamble Z ++
                [st_success Z "✅ Processed and aggregated monthly sales.";
                 st_line_chart (@nil (Timestamp * Z));
                 st_spinner Z "Training SARIMA model...";
                 st_error Z (generic_message e)])
  /\ ~ reports_data_quality_error Demo.env_header_only
         (fst (run 0 Demo.int64_add Demo.env_header_only (Some []))).
Proof.
  apply (@empty_series_reaches_the_model Z 0 Demo.int64_add unit
           Demo.env_header_only [] Demo.header_only); reflexivity.
Defined.

(** C4 as the spec words it fails on a header-only file: the run starts the
    model on the empty series, shows the handler's generic error for the
    model's exception and nothing that would count as a data-quality error. *)
Lemma header_only_file_is_fitted :
  validated Demo.parse_iso (rows Demo.header_only) = []
  /\ run 0 Demo.int64_add Demo.env_header_only (Some [])
     = (preamble Z ++
        [st_success Z "✅ Processed and aggregated monthly sales.";
         st_line_chart (@nil (Timestamp * Z));
         st_spinner Z "Training SARIMA model...";
         st_error Z (generic_message Demo.empty_series_error)],
        Uncaught forecast_df_unbound)
  /\ ~ reports_data_quality_error Demo.env_header_only
         (fst (run 0 Demo.int64_add Demo.env_header_only (Some []))).
Proof.
  split; [reflexivity|]. split; [reflexivity|].
  intros [_ Hno]. apply Hno. vm_compute. auto 10.
Qed.

(** ** The catch-all handler *)

(** C5 at a failing input.  An upload of zero bytes makes the CSV reader
    raise; the handler shows the generic error with the exception's text, and
    the script then goes on to the download button at module level, where
    [forecast_df] was never assigned: a [NameError] leaves the script
    uncaught.  The same happens when no file is uploaded at all. *)
Theorem handled_failure_then_uncaught_NameError :
  run 0 Demo.int64_add Demo.env_empty_upload (Some [])
  = (preamble Z ++ [st_error Z "❌ Error: No columns to parse from file"],
     Uncaught (mkExc "NameError" "name 'forecast_df' is not defined"))
  /\ run 0 Demo.int64_add Demo.env_empty_upload None
     = (preamble Z ++ [st_info Z "👈 Please upload your order CSV to get started."],
        Uncaught (mkExc "NameError" "name 'forecast_df' is not defined")).
Proof. split; reflexivity. Qed.

(** ** The encoding *)

Lemma decode_latin1_total (raw : list Byte.byte) :
  exists text, decode_with latin1 raw = Some text
               /\ List.length text = List.length raw.
Proof.
  induction raw as [|b raw (text & Hdec & Hlen)].
  - exists []. split; reflexivity.
  - exists (N.of_nat (Byte.to_nat b) :: text). simpl. rewrite Hdec.
    split; [reflexivity | simpl; f_equal; exact Hlen].
Qed.

(** A table with undefined bytes does reject input: byte 0xFF is not ASCII. *)
Example decode_ascii_rejects_high_byte :
  decode_with ascii7 [Byte.xff] = None /\ decode_with latin1 [Byte.xff] = Some [255%N].
Proof. split; reflexivity. Qed.

(** C8, as the code has it.  Whatever the detector answers, line 19 yields
    an encoding name and cannot fail.  With no answer, an empty answer, or
    the answer johab in any letter case, the name is ISO-8859-1, and under
    the decoder of that name every byte sequence decodes, byte for byte.
    Any other answer is kept as it is and handed to the CSV reader; when the
    reader raises under it, the page shows the handler's message for that
    exception. *)
Theorem encoding_choice_falls_back_to_latin1
  (detected : option string) (raw_data : list Byte.byte) :
  choose_encoding detected <> ""
  /\ (detected = None \/ detected = Some ""
      \/ (exists e, detected = Some e /\ lower e = "johab") ->
      choose_encoding detected = "ISO-8859-1"
      /\ exists dec text,
           decoder_of (choose_encoding detected) = Some dec
           /\ dec raw_data = Some text
           /\ List.length text = List.length raw_data)
  /\ (forall e, detected = Some e -> e <> "" -> lower e <> "johab" ->
                choose_encoding detected = e)
  /\ (forall (V : Type) (vzero : V) (vadd : V -> V -> V) (Results : Type)
             (env : Env V Results) (e : PyExc),
         read_csv env raw_data (choose_encoding (chardet_detect env raw_data)) = inl e ->
         fst (run vzero vadd env (Some raw_data))
         = preamble V ++ [st_error V (generic_message e)]).
Proof.
  split; [|split; [|split]].
  - destruct detected as [e|]; simpl; [|discriminate].
    destruct (String.eqb e "") eqn:E; simpl; [discriminate|].
    destruct (String.eqb (lower e) "johab"); simpl; [discriminate|].
    apply String.eqb_neq in E. exact E.
  - intros Hcase.
    assert (Hc : choose_encoding detected = "ISO-8859-1").
    { destruct Hcase as [-> | [-> | (e & -> & He)]]; [reflexivity | reflexivity |].
      unfold choose_encoding. rewrite He. rewrite andb_false_r. reflexivity. }
    split; [exact Hc|]. rewrite Hc.
    destruct (decode_latin1_total raw_data) as (text & Hdec & Hlen).
    exists (decode_with latin1), text. repeat split; assumption.
  - intros e -> Hne Hj. unfold choose_encoding.
    apply String.eqb_neq in Hne, Hj. rewrite Hne, Hj. reflexivity.
  - intros V vzero vadd Results env e Hread.
    rewrite (run_read_error vzero vadd env raw_data Hread). reflexivity.
Qed.

Lemma encoding_choice_falls_back_to_latin1_witness :
  (choose_encoding (Some "Johab") = "ISO-8859-1"
   /\ exists dec text,
        decoder_of (choose_encoding (Some "Johab")) = Some dec
        /\ dec Demo.bom_upload = Some text
        /\ List.length text = List.length Demo.bom_upload)
  /\ choose_encoding (Some "utf-8") = "utf-8".
Proof.
  split.
  - apply (proj1 (proj2 (encoding_choice_falls_back_to_latin1
                           (Some "Johab") Demo.bom_upload))).
    right; right. exists "Johab". split; reflexivity.
  - apply (proj1 (proj2 (proj2
             (encoding_choice_falls_back_to_latin1 (Some "utf-8") []))) "utf-8");
      [reflexivity | discriminate | discriminate].
Defined.

(** C8 as the spec words it fails on an upload of three bytes, a UTF-16
    byte-order mark and one more byte: the detector's answer UTF-16 is kept,
    the bytes do not decode under it (one byte more and they would; under
    ISO-8859-1 they do), and the run shows the decode error. *)
Lemma detected_encoding_can_fail_to_decode :
  choose_encoding (chardet_detect Demo.env_bom Demo.bom_upload) = "UTF-16"
  /\ decoder_of "UTF-16" = Some decode_utf16
  /\ decode_utf16 Demo.bom_upload = None
  /\ decode_utf16 (Demo.bom_upload ++ [Byte.x00]) = Some [65%N]
  /\ decode_with latin1 Demo.bom_upload = Some [255%N; 254%N; 65%N]
  /\ run 0 Demo.int64_add Demo.env_bom (Some Demo.bom_upload)
     = (preamble Z ++
        [st_error Z
           "❌ Error: 'utf-16-le' codec can't decode byte 0x41 in position 2: truncated data"],
        Uncaught forecast_df_unbound).
Proof. repeat split; reflexivity. Qed.

(** ** Further properties of the aggregation *)

(** X3.  Nothing is lost or counted twice: when the addition is associative
    and commutative with zero as its neutral element, the monthly totals add
    up to the total of the SALES column over the rows with a parseable date. *)
Theorem monthly_totals_add_up
  (V : Type) (vzero : V) (vadd : V -> V -> V)
  (parse_date : string -> option Timestamp) (df : list (Row V))
  (Hassoc : forall a b c, vadd (vadd a b) c = vadd a (vadd b c))
  (Hcomm : forall a b, vadd a b = vadd b a)
  (Hzero : forall a, vadd vzero a = a) :
  series_total vzero vadd (monthly_sales vzero vadd parse_date df)
  = sales_total vzero vadd (validated parse_date df).
Proof.
  unfold monthly_sales, groupby_sum, sales_total.
  change (dropna_ORDERDATE (parse_ORDERDATE parse_date df))
    with (validated parse_date df).
  rewrite series_total_fold by assumption. reflexivity.
Qed.

Lemma monthly_totals_add_up_witness :
  series_total 0 Z.add (monthly_sales 0 Z.add Demo.parse_iso Demo.mixed_rows)
  = sales_total 0 Z.add (validated Demo.parse_iso Demo.mixed_rows).
Proof.
  apply (@monthly_totals_add_up Z 0 Z.add Demo.parse_iso Demo.mixed_rows).
  - intros a b c. lia.
  - intros a b. lia.
  - intros a. reflexivity.
Defined.

(** X4.  The series has at most one entry per row with a parseable date, so
    never more entries than the file has rows. *)
Theorem at_most_one_month_per_row
  (V : Type) (vzero : V) (vadd : V -> V -> V)
  (parse_date : string -> option Timestamp) (df : list (Row V)) :
  (List.length (monthly_sales vzero vadd parse_date df)
   <= List.length (validated parse_date df))%nat
  /\ (List.length (validated parse_date df) <= List.length df)%nat.
Proof.
  split.
  - unfold monthly_sales, groupby_sum.
    change (dropna_ORDERDATE (parse_ORDERDATE parse_date df))
      with (validated parse_date df).
    pose proof (fold_length vzero vadd (with_Month (validated parse_date df)) []) as H.
    unfold with_Month in *. rewrite length_map in H. simpl in H. lia.
  - unfold validated, dropna_ORDERDATE, parse_ORDERDATE.
    etransitivity; [apply filter_length_le|]. rewrite length_map. lia.
Qed.

(** X5.  Every date in the index of the series is the first day of a real
    month at midnight, and month truncation leaves it as it is. *)
Theorem monthly_index_holds_month_starts
  (V : Type) (vzero : V) (vadd : V -> V -> V)
  (parse_date : string -> option Timestamp) (df : list (Row V)) (k : Timestamp)
  (Hin : In k (keys (monthly_sales vzero vadd parse_date df))) :
  day k = 1 /\ time k = 0 /\ 1 <= month k <= 12 /\ month_start k = k.
Proof.
  destruct (keys_month_start vzero vadd parse_date k df Hin) as (Hm & Hd & Ht).
  repeat split; try assumption; try apply Hm.
  rewrite (month_start_truncates Hm). destruct k; simpl in *; subst; reflexivity.
Qed.

Lemma monthly_index_holds_month_starts_witness :
  day (mkTimestamp 2023 2 1 0) = 1 /\ time (mkTimestamp 2023 2 1 0) = 0
  /\ 1 <= month (mkTimestamp 2023 2 1 0) <= 12
  /\ month_start (mkTimestamp 2023 2 1 0) = mkTimestamp 2023 2 1 0.
Proof.
  apply (@monthly_index_holds_month_starts Z 0 Demo.int64_add Demo.parse_iso
           Demo.example_rows).
  simpl. right. left. reflexivity.
Defined.

(** X6.  The forecast dates of line 51 are in strictly ascending order and
    every one of them is later than every month of the historical series. *)
Theorem forecast_dates_follow_the_history
  (V : Type) (vzero : V) (vadd : V -> V -> V)
  (parse_date : string -> option Timestamp) (df : list (Row V))
  (pre : list (Timestamp * V)) (last : Timestamp) (v : V)
  (Hlast : monthly_sales vzero vadd parse_date df = pre ++ [(last, v)]) :
  StronglySorted ts_lt (forecast_index last)
  /\ (forall k d, In k (keys (monthly_sales vzero vadd parse_date df)) ->
                  In d (forecast_index last) -> ts_lt k d).
Proof.
  assert (Hkey : In last (keys (monthly_sales vzero vadd parse_date df))).
  { rewrite Hlast. unfold keys. rewrite map_app. apply in_or_app. right. left. reflexivity. }
  destruct (keys_month_start vzero vadd parse_date last df Hkey) as (Hm & Hd & Ht).
  rewrite (forecast_index_following Hm Hd Ht).
  split; [apply following_months_sorted; exact Hm|].
  intros k d Hk Hdin.
  pose proof (following_months_later 12 Hm) as Hlater.
  rewrite Forall_forall in Hlater. specialize (Hlater d Hdin).
  pose proof (monthly_ordered vzero vadd parse_date df) as Hord.
  unfold ordered in Hord. rewrite Hlast in Hord, Hk.
  unfold keys in Hord, Hk. rewrite map_app in Hord, Hk. simpl in Hord, Hk.
  apply sorted_before_last in Hord. rewrite Forall_forall in Hord.
  apply in_app_or in Hk. destruct Hk as [Hk | [<- | []]].
  - apply (@ts_lt_trans k last d); [apply Hord; exact Hk | exact Hlater].
  - exact Hlater.
Qed.

Lemma forecast_dates_follow_the_history_witness :
  StronglySorted ts_lt (forecast_index (mkTimestamp 2024 12 1 0))
  /\ (forall k d,
         In k (keys (monthly_sales 0 Demo.int64_add Demo.parse_iso
                       (rows Demo.orders_2024))) ->
         In d (forecast_index (mkTimestamp 2024 12 1 0)) -> ts_lt k d).
Proof.
  apply (@forecast_dates_follow_the_history Z 0 Demo.int64_add Demo.parse_iso
           (rows Demo.orders_2024)
           [(mkTimestamp 2024 10 1 0, 40); (mkTimestamp 2024 11 1 0, 10)]
           (mkTimestamp 2024 12 1 0) 20).
  reflexivity.
Defined.

(** ** Further properties of the run *)

(** X7.  The encoding handed to the CSV reader is never johab in any letter
    case and never the empty name, and choosing again from the chosen name
    changes nothing. *)
Theorem chosen_encoding_is_never_johab (detected : option string) :
  lower (choose_encoding detected) <> "johab"
  /\ choose_encoding detected <> ""
  /\ choose_encoding (Some (choose_encoding detected)) = choose_encoding detected.
Proof.
  destruct detected as [e|]; simpl;
    [|repeat split; discriminate].
  destruct (String.eqb e "") eqn:E0; simpl;
    [repeat split; discriminate|].
  destruct (String.eqb (lower e) "johab") eqn:Ej; simpl;
    [repeat split; discriminate|].
  rewrite E0, Ej. simpl.
  apply String.eqb_neq in E0, Ej. auto.
Qed.

(** X8.  A run ends in one of three ways: finished, halted by [st.stop()],
    or with the [NameError] on [forecast_df].  It halts exactly when the
    file was read and a required column is missing; it finishes exactly when
    the file was read, has the columns, gives a series that is not empty,
    and the fit and the forecast both succeed. *)
Theorem run_endings
  (V : Type) (vzero : V) (vadd : V -> V -> V) (Results : Type)
  (env : Env V Results) (uploaded_file : option (list Byte.byte)) :
  (snd (run vzero vadd env uploaded_file) = Finished
   \/ snd (run vzero vadd env uploaded_file) = Halted
   \/ snd (run vzero vadd env uploaded_file) = Uncaught forecast_df_unbound)
  /\ (snd (run vzero vadd env uploaded_file) = Halted <->
      exists raw df,
        uploaded_file = Some raw
        /\ read_csv env raw (choose_encoding (chardet_detect env raw)) = inr df
        /\ issubset required_cols (columns df) = false)
  /\ (snd (run vzero vadd env uploaded_file) = Finished <->
      exists raw df results fc,
        uploaded_file = Some raw
        /\ read_csv env raw (choose_encoding (chardet_detect env raw)) = inr df
        /\ issubset required_cols (columns df) = true
        /\ SARIMAX_fit env (monthly_sales vzero vadd (parse_date env) (rows df))
           = inr results
        /\ get_forecast env results forecast_steps = inr fc
        /\ monthly_sales vzero vadd (parse_date env) (rows df) <> []).
Proof.
  split; [|split].
  - destruct (run_cases vzero vadd env uploaded_file); simpl; auto.
  - split.
    + intros Hh. remember (run vzero vadd env uploaded_file) as out eqn:Heq.
      pose proof (run_cases vzero vadd env uploaded_file) as Hc.
      rewrite <- Heq in Hc.
      destruct Hc as [ | | raw df Hread Hcols | | ]; simpl in Hh; try discriminate.
      exists raw, df. auto.
    + intros (raw & df & -> & Hread & Hcols).
      rewrite (run_schema_error vzero vadd env raw Hread Hcols). reflexivity.
  - split.
    + intros Hf. remember (run vzero vadd env uploaded_file) as out eqn:Heq.
      pose proof (run_cases vzero vadd env uploaded_file) as Hc.
      rewrite <- Heq in Hc.
      destruct Hc as [ | | | | raw df results fc pre last v Hread Hcols Hfit Hfc Hlast];
        simpl in Hf; try discriminate.
      exists raw, df, results, fc. repeat split; auto.
      rewrite Hlast. intros E. apply app_eq_nil in E. destruct E; discriminate.
    + intros (raw & df & results & fc & -> & Hread & Hcols & Hfit & Hfc & Hne).
      destruct (exists_last Hne) as (pre & [last v] & Hlast).
      rewrite (run_success vzero vadd env raw pre last v Hread Hcols Hfit Hfc Hlast).
      reflexivity.
Qed.



(** X10.  When a run finishes, the page ends with the download button for
    forecast_output.csv, and the table it offers is the table shown by
    [st.write] before, with exactly 12 rows. *)
Theorem finished_run_offers_the_shown_table
  (V : Type) (vzero : V) (vadd : V -> V -> V) (Results : Type)
  (env : Env V Results) (uploaded_file : option (list Byte.byte))
  (Hend : snd (run vzero vadd env uploaded_file) = Finished) :
  exists shown table,
    fst (run vzero vadd env uploaded_file)
    = shown ++ [st_download_button "forecast_output.csv" table]
    /\ In (st_write table) shown
    /\ List.length table = 12%nat
    /\ (forall name other, In (st_download_button name other) shown -> False).
Proof.
  remember (run vzero vadd env uploaded_file) as out eqn:Heq.
  pose proof (run_cases vzero vadd env uploaded_file) as Hc.
  rewrite <- Heq in Hc.
  destruct Hc as [ | raw e0 Hread | raw df Hread Hcols | raw df e0 Hread Hcols Hwhy
                 | raw df results fc pre last v Hread Hcols Hfit Hfc Hlast];
    simpl in Hend; try discriminate. simpl fst.
  exists (preamble V ++
          [st_success V "✅ Processed and aggregated monthly sales.";
           st_line_chart (monthly_sales vzero vadd (parse_date env) (rows df));
           st_spinner V "Training SARIMA model...";
           st_subheader V "📅 Forecast (Next 12 Months)";
           st_write (make_forecast_df (predicted_mean fc) (forecast_index last));
           st_subheader V "📈 Forecast Plot";
           st_pyplot (monthly_sales vzero vadd (parse_date env) (rows df))
                     (forecast_index last) (predicted_mean fc) (conf_int fc)]),
         (make_forecast_df (predicted_mean fc) (forecast_index last)).
  split; [reflexivity|]. split; [simpl; auto 10|]. split.
  - unfold make_forecast_df. rewrite length_map. reflexivity.
  - intros name other H. simpl in H. intuition discriminate.
Qed.

Lemma finished_run_offers_the_shown_table_witness :
  exists shown table,
    fst (run 0 Demo.int64_add Demo.env_2024 (Some []))
    = shown ++ [st_download_button "forecast_output.csv" table]
    /\ In (st_write table) shown
    /\ List.length table = 12%nat
    /\ (forall name other, In (st_download_button name other) shown -> False).
Proof.
  apply (@finished_run_offers_the_shown_table Z 0 Demo.int64_add unit
           Demo.env_2024 (Some [])).
  reflexivity.
Defined.

(** X11.  The model is started only on an uploaded file that was read and
    has both required columns: otherwise neither the aggregation message nor
    the training spinner appears on the page. *)
Theorem model_started_only_after_checks
  (V : Type) (vzero : V) (vadd : V -> V -> V) (Results : Type)
  (env : Env V Results) (uploaded_file : option (list Byte.byte)) (msg : string)
  (Hshown : In (st_spinner V msg) (fst (run vzero vadd env uploaded_file))
            \/ In (st_success V msg) (fst (run vzero vadd env uploaded_file))) :
  exists raw df,
    uploaded_file = Some raw
    /\ read_csv env raw (choose_encoding (chardet_detect env raw)) = inr df
    /\ In "ORDERDATE" (columns df) /\ In "SALES" (columns df).
Proof.
  remember (run vzero vadd env uploaded_file) as out eqn:Heq.
  pose proof (run_cases vzero vadd env uploaded_file) as Hc.
  rewrite <- Heq in Hc.
  destruct Hc as [ | raw e0 Hread | raw df Hread Hcols | raw df e0 Hread Hcols Hwhy
                 | raw df results fc pre last v Hread Hcols Hfit Hfc Hlast];
    simpl in Hshown;
    try (exfalso; intuition discriminate);
    exists raw, df; apply issubset_required in Hcols; tauto.
Qed.

Lemma model_started_only_after_checks_witness :
  exists raw df,
    Some [] = Some raw
    /\ read_csv Demo.env_2024 raw
         (choose_encoding (chardet_detect Demo.env_2024 raw)) = inr df
    /\ In "ORDERDATE" (columns df) /\ In "SALES" (columns df).
Proof.
  apply (@model_started_only_after_checks Z 0 Demo.int64_add unit
           Demo.env_2024 (Some []) "Training SARIMA model...").
  left. simpl. auto 10.
Defined.

(** ** The forecast table and the column check *)

(** X12.  Line 57 aligns the forecast values to the date index by label: when
    the forecast series is labelled by position and carries no date, every
    cell of the Forecast column is missing. *)
Theorem forecast_table_empty_without_date_labels
  (V : Type) (values : list (Label * V)) (index : list Timestamp)
  (Hpos : Forall (fun e => exists i, fst e = LPos i) values) :
  make_forecast_df values index = map (fun d => (d, None)) index.
Proof.
  unfold make_forecast_df. apply map_ext. intros d.
  rewrite (series_get_positions d Hpos). reflexivity.
Qed.

Lemma forecast_table_empty_without_date_labels_witness :
  make_forecast_df Demo.position_forecast (forecast_index (mkTimestamp 2024 12 1 0))
  = map (fun d => (d, None)) (forecast_index (mkTimestamp 2024 12 1 0)).
Proof.
  apply (@forecast_table_empty_without_date_labels Z Demo.position_forecast).
  unfold Demo.position_forecast.
  repeat (constructor; [simpl; eexists; reflexivity|]). constructor.
Defined.

Lemma map_with_values (V : Type) (g : Timestamp -> option V)
  (index : list Timestamp) (vs : list V) :
  List.length vs = List.length index ->
  (forall d x, In (d, x) (combine index vs) -> g d = Some x) ->
  map (fun d => (d, g d)) index = combine index (map Some vs).
Proof.
  revert vs. induction index as [|d index IH]; intros [|v vs] Hlen Hg;
    simpl in *; try discriminate; [reflexivity|].
  rewrite (Hg d v) by (left; reflexivity).
  f_equal. apply IH; [lia|]. intros d' x Hin. apply Hg. right. exact Hin.
Qed.

(** X13.  When the forecast values are labelled with the dates of the index,
    one value per date, the table pairs each date with its value, in the
    order of the index. *)
Theorem forecast_table_pairs_dates_with_values
  (V : Type) (index : list Timestamp) (vs : list V)
  (Hnodup : NoDup index)
  (Hlen : List.length vs = List.length index) :
  make_forecast_df (combine (map LStamp index) vs) index
  = combine index (map Some vs).
Proof.
  unfold make_forecast_df. apply map_with_values; [exact Hlen|].
  intros d x Hin. apply series_get_dated; assumption.
Qed.

Lemma forecast_table_pairs_dates_with_values_witness :
  make_forecast_df
    (combine (map LStamp [mkTimestamp 2025 1 1 0; mkTimestamp 2025 2 1 0]) [5; 6])
    [mkTimestamp 2025 1 1 0; mkTimestamp 2025 2 1 0]
  = combine [mkTimestamp 2025 1 1 0; mkTimestamp 2025 2 1 0] (map Some [5; 6]).
Proof.
  apply (@forecast_table_pairs_dates_with_values Z
           [mkTimestamp 2025 1 1 0; mkTimestamp 2025 2 1 0] [5; 6]).
  - repeat constructor; simpl; intuition discriminate.
  - reflexivity.
Defined.

(** X14.  The column check looks only at whether the two names occur in the
    header: a header that passes still passes with more columns or in
    another order. *)
Theorem column_check_ignores_extra_columns
  (cols cols' : list string)
  (Hsub : forall c, In c cols -> In c cols')
  (Hok : issubset required_cols cols = true) :
  issubset required_cols cols' = true.
Proof.
  apply issubset_required. apply issubset_required in Hok.
  destruct Hok as [H1 H2]. split; apply Hsub; assumption.
Qed.

Lemma column_check_ignores_extra_columns_witness :
  issubset required_cols ["QUANTITY"; "SALES"; "STATUS"; "ORDERDATE"] = true.
Proof.
  apply (@column_check_ignores_extra_columns ["ORDERDATE"; "SALES"]
           ["QUANTITY"; "SALES"; "STATUS"; "ORDERDATE"]).
  - intros c [<- | [<- | []]]; simpl; auto.
  - reflexivity.
Defined.
